(** * LivelyAPI: the API description normalizer ([src/lib/api-analyzer.ts])

    A shallow embedding of the [APIAnalyzer] class and of the JavaScript
    run-time operations it relies on, followed by the properties of the
    analyzer that the design document states. *)

From Stdlib Require Import String Ascii List ZArith NArith Lia Bool Arith.
From Stdlib Require Import Permutation Numbers.DecimalString.
From Stdlib Require Numbers.DecimalNat.
Import ListNotations.
Open Scope string_scope.
Open Scope list_scope.

Set Implicit Arguments.
Set Warnings "-register-all".

(** String concatenation, written apart from list concatenation. *)
Infix "+++" := String.append (right associativity, at level 60).

(** ** Exceptions

    The analyzer can end in three ways other than a value: a [TypeError]
    raised by the run time (property access on [null], a call of something
    that is not a function, [in] applied to a primitive), the [SyntaxError]
    of [JSON.parse], and the analyzer's own [new Error(message)]. *)

Inductive exn : Type :=
| TypeError
| SyntaxError
| Error (message : string).

Definition throws (A : Type) : Type := (exn + A)%type.

Definition ret {A} (a : A) : throws A := inr a.
Definition throw {A} (e : exn) : throws A := inl e.

Definition bind {A B} (c : throws A) (k : A -> throws B) : throws B :=
  match c with
  | inl e => inl e
  | inr a => k a
  end.

Declare Scope js_scope.
Delimit Scope js_scope with js.
Notation "x <- c ;; k" := (bind c (fun x => k))
  (at level 61, c at next level, right associativity) : js_scope.
Notation "' p <- c ;; k" := (bind c (fun x => let p := x in k))
  (at level 61, p pattern, c at next level, right associativity) : js_scope.
Open Scope js_scope.

(** [xs.forEach(f)] where [f] builds one element (or throws): the elements
    are produced left to right and the first exception aborts the loop. *)
Fixpoint forEach {A B} (f : A -> throws B) (xs : list A) : throws (list B) :=
  match xs with
  | [] => ret []
  | x :: r =>
      y <- f x ;;
      ys <- forEach f r ;;
      ret (y :: ys)
  end.

(** ** Strings

    Strings are ASCII text: one [ascii] per character, with the case
    conversion of the ASCII letters. *)
Module JSString.

Definition is_upper (c : ascii) : bool :=
  let n := nat_of_ascii c in (65 <=? n)%nat && (n <=? 90)%nat.

Definition lower_char (c : ascii) : ascii :=
  if is_upper c then ascii_of_nat (nat_of_ascii c + 32) else c.

(** [s.toLowerCase()] *)
Fixpoint toLowerCase (s : string) : string :=
  match s with
  | EmptyString => EmptyString
  | String c r => String (lower_char c) (toLowerCase r)
  end.

Definition is_lower (c : ascii) : bool :=
let n := nat_of_ascii c in (97 <=? n)%nat && (n <=? 122)%nat.

Definition upper_char (c : ascii) : ascii :=
if is_lower c then ascii_of_nat (nat_of_ascii c - 32) else c.

(** [s.toUpperCase()] *)
Fixpoint toUpperCase (s : string) : string :=
match s with
| EmptyString => EmptyString
| String c r => String (upper_char c) (toUpperCase r)
end.

(** [s.includes(sub)] *)
Fixpoint includes (s sub : string) : bool :=
  if prefix sub s then true
  else match s with
       | EmptyString => false
       | String _ r => includes r sub
       end.

(** [parts.join(sep)] on an array of strings *)
Fixpoint join (sep : string) (parts : list string) : string :=
  match parts with
  | [] => EmptyString
  | [p] => p
  | p :: r => p +++ sep +++ join sep r
  end.

(** Decimal numerals, as template literals print integers. *)
Definition of_nat (n : nat) : string := NilZero.string_of_uint (Nat.to_uint n).
Definition of_Z (z : Z) : string := NilZero.string_of_int (Z.to_int z).

End JSString.

(** ** JSON values

    The result of [JSON.parse]. An object keeps its members as the document
    lists them (in order, a key possibly repeated); what the run time makes
    of that list is [own_entries] below. Numbers are carried as integers:
    the analyzer only tests them for zero, prints them and passes them on. *)
Inductive JSON : Type :=
| JNull
| JBool (b : bool)
| JNum (n : Z)
| JStr (s : string)
| JArr (elems : list JSON)
| JObj (members : list (string * JSON)).

(** A JavaScript value the analyzer handles: [undefined] or a JSON value. *)
Definition JSVal : Type := option JSON.
Abbreviation undefined := (@None JSON).

Module JS.

(** ToBoolean *)
Definition truthy (v : JSVal) : bool :=
  match v with
  | None => false
  | Some JNull => false
  | Some (JBool b) => b
  | Some (JNum n) => negb (Z.eqb n 0)
  | Some (JStr s) => negb (String.eqb s EmptyString)
  | Some (JArr _) => true
  | Some (JObj _) => true
  end.

(** [a || b] *)
Definition or (a b : JSVal) : JSVal := if truthy a then a else b.

(** An array index: the canonical numeral of an integer below [2^32 - 1]. *)
Definition is_digit (c : ascii) : bool :=
  let n := nat_of_ascii c in (48 <=? n)%nat && (n <=? 57)%nat.

Definition digit_val (c : ascii) : N := N.of_nat (nat_of_ascii c - 48).

Fixpoint all_digits (s : string) : bool :=
  match s with
  | EmptyString => true
  | String c r => is_digit c && all_digits r
  end.

Fixpoint digits_val (acc : N) (s : string) : N :=
  match s with
  | EmptyString => acc
  | String c r => digits_val (10 * acc + digit_val c) r
  end.

Definition array_index (k : string) : option N :=
  match k with
  | EmptyString => None
  | String c r =>
      if all_digits k
         && (negb (Ascii.eqb c "0") || String.eqb r EmptyString)
         && (digits_val 0 k <? 4294967295)%N
      then Some (digits_val 0 k)
      else None
  end.

(** *** Own properties of an object built by [JSON.parse]

    Each member of the document defines the property named by its key:
    a new key is appended, a repeated key keeps its place and takes the
    new value. *)
Fixpoint define (k : string) (v : JSON) (o : list (string * JSON))
  : list (string * JSON) :=
  match o with
  | [] => [(k, v)]
  | (k', v') :: r =>
      if String.eqb k k' then (k', v) :: r else (k', v') :: define k v r
  end.

Definition properties (members : list (string * JSON)) : list (string * JSON) :=
  fold_left (fun o kv => define (fst kv) (snd kv) o) members [].

Fixpoint lookup (k : string) (o : list (string * JSON)) : JSVal :=
  match o with
  | [] => undefined
  | (k', v) :: r => if String.eqb k k' then Some v else lookup k r
  end.

(** Enumeration order of own properties: array indices in ascending
    numeric order, then the other names in creation order. *)
Fixpoint insert_index (i : N) (kv : string * JSON) (l : list (N * (string * JSON)))
  : list (N * (string * JSON)) :=
  match l with
  | [] => [(i, kv)]
  | (j, kv') :: r =>
      if (i <? j)%N then (i, kv) :: (j, kv') :: r
      else (j, kv') :: insert_index i kv r
  end.

Fixpoint indexed (o : list (string * JSON)) : list (N * (string * JSON)) :=
  match o with
  | [] => []
  | kv :: r =>
      match array_index (fst kv) with
      | Some i => insert_index i kv (indexed r)
      | None => indexed r
      end
  end.

Definition named (o : list (string * JSON)) : list (string * JSON) :=
  filter (fun kv => match array_index (fst kv) with
                    | Some _ => false
                    | None => true
                    end) o.

Definition own_entries (members : list (string * JSON)) : list (string * JSON) :=
  let o := properties members in
  map snd (indexed o) ++ named o.

(** Entries of an array-like value: index numerals paired with elements. *)
Fixpoint number_from {A} (i : nat) (xs : list A) : list (string * A) :=
  match xs with
  | [] => []
  | x :: r => (JSString.of_nat i, x) :: number_from (S i) r
  end.

Fixpoint chars (s : string) : list JSON :=
  match s with
  | EmptyString => []
  | String c r => JStr (String c EmptyString) :: chars r
  end.

(** [Object.entries(v)] *)
Definition Object_entries (v : JSVal) : throws (list (string * JSON)) :=
  match v with
  | None => throw TypeError
  | Some JNull => throw TypeError
  | Some (JBool _) => ret []
  | Some (JNum _) => ret []
  | Some (JStr s) => ret (number_from 0 (chars s))
  | Some (JArr l) => ret (number_from 0 l)
  | Some (JObj m) => ret (own_entries m)
  end.

(** [Object.values(v)] *)
Definition Object_values (v : JSVal) : throws (list JSON) :=
  es <- Object_entries v ;; ret (map snd es).

(** [v.k] and [v[k]]: property access. The names the analyzer asks for are
    neither [length] nor members of a built-in prototype, so a primitive,
    and an array or a string at a name that is not an index, answer
    [undefined]. *)
Definition get (v : JSVal) (k : string) : throws JSVal :=
  match v with
  | None => throw TypeError
  | Some JNull => throw TypeError
  | Some (JBool _) => ret undefined
  | Some (JNum _) => ret undefined
  | Some (JStr s) =>
      match array_index k with
      | Some i => ret (nth_error (chars s) (N.to_nat i))
      | None => ret undefined
      end
  | Some (JArr l) =>
      match array_index k with
      | Some i => ret (nth_error l (N.to_nat i))
      | None => ret undefined
      end
  | Some (JObj m) => ret (lookup k (properties m))
  end.

(** [v?.k] *)
Definition get_opt (v : JSVal) (k : string) : JSVal :=
  match v with
  | None => undefined
  | Some JNull => undefined
  | _ => match get v k with
         | inr w => w
         | inl _ => undefined
         end
  end.

(** [k in v] *)
Definition has_property (k : string) (v : JSVal) : throws bool :=
  match v with
  | Some (JObj m) =>
      ret (match lookup k (properties m) with Some _ => true | None => false end)
  | Some (JArr l) =>
      ret (match array_index k with
           | Some i => (N.to_nat i <? length l)%nat
           | None => false
           end)
  | _ => throw TypeError
  end.

(** [Array.isArray(v)] *)
Definition isArray (v : JSVal) : bool :=
  match v with
  | Some (JArr _) => true
  | _ => false
  end.

(** ToString, as a template literal applies it. *)
Fixpoint ToString (v : JSON) : string :=
  match v with
  | JNull => "null"
  | JBool true => "true"
  | JBool false => "false"
  | JNum n => JSString.of_Z n
  | JStr s => s
  | JArr l =>
      (fix go (l : list JSON) : string :=
         match l with
         | [] => EmptyString
         | x :: r =>
             let e := match x with JNull => EmptyString | _ => ToString x end in
             match r with
             | [] => e
             | _ :: _ => e +++ "," +++ go r
             end
         end) l
  | JObj _ => "[object Object]"
  end.

Definition ToStringV (v : JSVal) : string :=
  match v with
  | None => "undefined"
  | Some j => ToString j
  end.

End JS.


(** ** Numbers produced by [parseInt]

    [parseInt] answers [NaN] or an integer. *)
Module JSNumber.

Inductive number : Type :=
| NaN
| Int (z : Z).

Definition is_space (c : ascii) : bool :=
  let n := nat_of_ascii c in
  ((9 <=? n)%nat && (n <=? 13)%nat) || (n =? 32)%nat.

Fixpoint trim_start (s : string) : string :=
  match s with
  | EmptyString => EmptyString
  | String c r => if is_space c then trim_start r else s
  end.

Definition dec_digit (c : ascii) : option Z :=
  let n := nat_of_ascii c in
  if (48 <=? n)%nat && (n <=? 57)%nat then Some (Z.of_nat (n - 48)) else None.

Definition hex_digit (c : ascii) : option Z :=
  let n := nat_of_ascii c in
  if (48 <=? n)%nat && (n <=? 57)%nat then Some (Z.of_nat (n - 48))
  else if (97 <=? n)%nat && (n <=? 102)%nat then Some (Z.of_nat (n - 87))
  else if (65 <=? n)%nat && (n <=? 70)%nat then Some (Z.of_nat (n - 55))
  else None.

(** The longest prefix of digits, read in the given radix; [None] when
    the prefix is empty. *)
Fixpoint read_digits (radix : Z) (digit : ascii -> option Z)
         (acc : option Z) (s : string) : option Z :=
  match s with
  | EmptyString => acc
  | String c r =>
      match digit c with
      | Some d =>
          read_digits radix digit
            (Some (radix * match acc with Some a => a | None => 0 end + d)%Z) r
      | None => acc
      end
  end.

(** [parseInt(s)], no radix given *)
Definition parseInt (s : string) : number :=
  let s := trim_start s in
  let '(negative, s) :=
    match s with
    | String "-" r => (true, r)
    | String "+" r => (false, r)
    | _ => (false, s)
    end in
  let digits :=
    match s with
    | String "0" (String "x" r) => read_digits 16 hex_digit None r
    | String "0" (String "X" r) => read_digits 16 hex_digit None r
    | _ => read_digits 10 dec_digit None s
    end in
  match digits with
  | None => NaN
  | Some n => Int (if negative then - n else n)%Z
  end.

End JSNumber.
Export JSNumber.

(** ** Data model ([api-analyzer.ts], lines 1-38)

    A field that the analyzer fills with whatever the document holds is a
    [JSVal]; a field it always fills with a value of one shape has that
    shape. *)

Inductive Method : Type := GET | POST | PUT | DELETE | PATCH.

Definition Method_eqb (a b : Method) : bool :=
  match a, b with
  | GET, GET | POST, POST | PUT, PUT | DELETE, DELETE | PATCH, PATCH => true
  | _, _ => false
  end.

Definition Method_to_string (m : Method) : string :=
  match m with
  | GET => "GET"
  | POST => "POST"
  | PUT => "PUT"
  | DELETE => "DELETE"
  | PATCH => "PATCH"
  end.

Module APIParameter.
Record t : Type := make
  { name : JSVal;
    type : JSVal;
    required : JSVal;
    description : JSVal;
    location : JSVal;
    example : JSVal }.
End APIParameter.

Module APIResponse.
Record t : Type := make
  { statusCode : number;
    description : JSVal;
    example : JSVal }.
End APIResponse.

Module APIEndpoint.
Record t : Type := make
  { path : string;
    method : Method;
    summary : JSVal;
    description : JSVal;
    parameters : list APIParameter.t;
    responses : list APIResponse.t;
    tags : JSVal }.
End APIEndpoint.

Inductive AuthType : Type := apiKey | bearer | oauth | basic.

Module Authentication.
Record t : Type := make
  { type : AuthType;
    location : JSVal;
    name : JSVal }.
End Authentication.

Module ParsedAPI.
Record t : Type := make
  { name : JSVal;
    baseUrl : JSVal;
    description : JSVal;
    endpoints : list APIEndpoint.t;
    authentication : Authentication.t;
    capabilities : list string }.
End ParsedAPI.

(** Literals *)
Definition str (s : string) : JSVal := Some (JStr s).
Definition num (n : Z) : JSVal := Some (JNum n).
Definition boolean (b : bool) : JSVal := Some (JBool b).
Definition arr (l : list JSON) : JSVal := Some (JArr l).
Definition obj (m : list (string * JSON)) : JSVal := Some (JObj m).

(** ** The vendor catalog ([POPULAR_APIS], lines 41-255) *)
Module POPULAR_APIS.

Definition stripe : ParsedAPI.t :=
  {| ParsedAPI.name := str "Stripe";
     ParsedAPI.baseUrl := str "https://api.stripe.com/v1";
     ParsedAPI.description := str "Payment processing and subscription management";
     ParsedAPI.authentication :=
       {| Authentication.type := bearer; Authentication.location := undefined;
       Authentication.name := undefined |};
     ParsedAPI.endpoints :=
       [
    {| APIEndpoint.path := "/customers";
       APIEndpoint.method := GET;
       APIEndpoint.summary := str "List customers";
       APIEndpoint.description := str "Returns a list of your customers";
       APIEndpoint.parameters :=
         [ {| APIParameter.name := str "limit"; APIParameter.type := str "integer";
           APIParameter.required := boolean false;
           APIParameter.description := str "Number of customers to return";
           APIParameter.location := str "query"; APIParameter.example := num 10 |};
           {| APIParameter.name := str "email"; APIParameter.type := str "string";
           APIParameter.required := boolean false;
           APIParameter.description := str "Filter by customer email";
           APIParameter.location := str "query"; APIParameter.example := undefined |} ];
       APIEndpoint.responses :=
         [ {| APIResponse.statusCode := Int 200;
           APIResponse.description := str "List of customers";
           APIResponse.example := obj [("data", JArr []); ("has_more", JBool false)] |} ];
       APIEndpoint.tags := arr [JStr "customers"] |};
    {| APIEndpoint.path := "/customers";
       APIEndpoint.method := POST;
       APIEndpoint.summary := str "Create customer";
       APIEndpoint.description := str "Creates a new customer object";
       APIEndpoint.parameters :=
         [ {| APIParameter.name := str "email"; APIParameter.type := str "string";
           APIParameter.required := boolean false;
           APIParameter.description := str "Customer email";
           APIParameter.location := str "body"; APIParameter.example := undefined |};
           {| APIParameter.name := str "name"; APIParameter.type := str "string";
           APIParameter.required := boolean false;
           APIParameter.description := str "Customer name";
           APIParameter.location := str "body"; APIParameter.example := undefined |};
           {| APIParameter.name := str "phone"; APIParameter.type := str "string";
           APIParameter.required := boolean false;
           APIParameter.description := str "Customer phone";
           APIParameter.location := str "body"; APIParameter.example := undefined |} ];
       APIEndpoint.responses :=
         [ {| APIResponse.statusCode := Int 200;
           APIResponse.description := str "Customer created";
           APIResponse.example := obj [("id", JStr "cus_123"); ("email", JStr "customer@example.com")] |} ];
       APIEndpoint.tags := arr [JStr "customers"] |};
    {| APIEndpoint.path := "/payment_intents";
       APIEndpoint.method := POST;
       APIEndpoint.summary := str "Create payment intent";
       APIEndpoint.description := str "Creates a PaymentIntent object";
       APIEndpoint.parameters :=
         [ {| APIParameter.name := str "amount"; APIParameter.type := str "integer";
           APIParameter.required := boolean true;
           APIParameter.description := str "Amount in cents";
           APIParameter.location := str "body"; APIParameter.example := num 2000 |};
           {| APIParameter.name := str "currency"; APIParameter.type := str "string";
           APIParameter.required := boolean true;
           APIParameter.description := str "Currency code";
           APIParameter.location := str "body"; APIParameter.example := str "usd" |};
           {| APIParameter.name := str "customer"; APIParameter.type := str "string";
           APIParameter.required := boolean false;
           APIParameter.description := str "Customer ID";
           APIParameter.location := str "body"; APIParameter.example := undefined |} ];
       APIEndpoint.responses :=
         [ {| APIResponse.statusCode := Int 200;
           APIResponse.description := str "Payment intent created";
           APIResponse.example := obj [("id", JStr "pi_123"); ("status", JStr "requires_payment_method")] |} ];
       APIEndpoint.tags := arr [JStr "payments"] |};
    {| APIEndpoint.path := "/subscriptions";
       APIEndpoint.method := GET;
       APIEndpoint.summary := str "List subscriptions";
       APIEndpoint.description := str "Returns a list of your subscriptions";
       APIEndpoint.parameters :=
         [ {| APIParameter.name := str "customer"; APIParameter.type := str "string";
           APIParameter.required := boolean false;
           APIParameter.description := str "Filter by customer ID";
           APIParameter.location := str "query"; APIParameter.example := undefined |};
           {| APIParameter.name := str "status"; APIParameter.type := str "string";
           APIParameter.required := boolean false;
           APIParameter.description := str "Filter by status";
           APIParameter.location := str "query"; APIParameter.example := undefined |} ];
       APIEndpoint.responses :=
         [ {| APIResponse.statusCode := Int 200;
           APIResponse.description := str "List of subscriptions";
           APIResponse.example := obj [("data", JArr []); ("has_more", JBool false)] |} ];
       APIEndpoint.tags := arr [JStr "subscriptions"] |}
       ];
     ParsedAPI.capabilities :=
       [ "Process payments";
         "Manage customers";
         "Handle subscriptions";
         "Create invoices";
         "Manage payment methods" ] |}.

Definition shopify : ParsedAPI.t :=
  {| ParsedAPI.name := str "Shopify";
     ParsedAPI.baseUrl := str "https://{shop}.myshopify.com/admin/api/2023-10";
     ParsedAPI.description := str "E-commerce platform for online stores";
     ParsedAPI.authentication :=
       {| Authentication.type := apiKey; Authentication.location := str "header";
       Authentication.name := str "X-Shopify-Access-Token" |};
     ParsedAPI.endpoints :=
       [
    {| APIEndpoint.path := "/products.json";
       APIEndpoint.method := GET;
       APIEndpoint.summary := str "List products";
       APIEndpoint.description := str "Retrieve a list of products";
       APIEndpoint.parameters :=
         [ {| APIParameter.name := str "limit"; APIParameter.type := str "integer";
           APIParameter.required := boolean false;
           APIParameter.description := str "Number of products to return";
           APIParameter.location := str "query"; APIParameter.example := num 50 |};
           {| APIParameter.name := str "status"; APIParameter.type := str "string";
           APIParameter.required := boolean false;
           APIParameter.description := str "Filter by status";
           APIParameter.location := str "query"; APIParameter.example := undefined |} ];
       APIEndpoint.responses :=
         [ {| APIResponse.statusCode := Int 200;
           APIResponse.description := str "List of products";
           APIResponse.example := obj [("products", JArr [])] |} ];
       APIEndpoint.tags := arr [JStr "products"] |};
    {| APIEndpoint.path := "/orders.json";
       APIEndpoint.method := GET;
       APIEndpoint.summary := str "List orders";
       APIEndpoint.description := str "Retrieve a list of orders";
       APIEndpoint.parameters :=
         [ {| APIParameter.name := str "status"; APIParameter.type := str "string";
           APIParameter.required := boolean false;
           APIParameter.description := str "Filter by order status";
           APIParameter.location := str "query"; APIParameter.example := undefined |};
           {| APIParameter.name := str "limit"; APIParameter.type := str "integer";
           APIParameter.required := boolean false;
           APIParameter.description := str "Number of orders to return";
           APIParameter.location := str "query"; APIParameter.example := num 50 |} ];
       APIEndpoint.responses :=
         [ {| APIResponse.statusCode := Int 200;
           APIResponse.description := str "List of orders";
           APIResponse.example := obj [("orders", JArr [])] |} ];
       APIEndpoint.tags := arr [JStr "orders"] |};
    {| APIEndpoint.path := "/customers.json";
       APIEndpoint.method := GET;
       APIEndpoint.summary := str "List customers";
       APIEndpoint.description := str "Retrieve a list of customers";
       APIEndpoint.parameters :=
         [ {| APIParameter.name := str "limit"; APIParameter.type := str "integer";
           APIParameter.required := boolean false;
           APIParameter.description := str "Number of customers to return";
           APIParameter.location := str "query"; APIParameter.example := num 50 |} ];
       APIEndpoint.responses :=
         [ {| APIResponse.statusCode := Int 200;
           APIResponse.description := str "List of customers";
           APIResponse.example := obj [("customers", JArr [])] |} ];
       APIEndpoint.tags := arr [JStr "customers"] |};
    {| APIEndpoint.path := "/inventory_levels.json";
       APIEndpoint.method := GET;
       APIEndpoint.summary := str "Get inventory levels";
       APIEndpoint.description := str "Retrieve inventory levels for products";
       APIEndpoint.parameters :=
         [ {| APIParameter.name := str "inventory_item_ids"; APIParameter.type := str "string";
           APIParameter.required := boolean false;
           APIParameter.description := str "Comma-separated inventory item IDs";
           APIParameter.location := str "query"; APIParameter.example := undefined |} ];
       APIEndpoint.responses :=
         [ {| APIResponse.statusCode := Int 200;
           APIResponse.description := str "Inventory levels";
           APIResponse.example := obj [("inventory_levels", JArr [])] |} ];
       APIEndpoint.tags := arr [JStr "inventory"] |}
       ];
     ParsedAPI.capabilities :=
       [ "Manage products";
         "Process orders";
         "Handle customers";
         "Track inventory";
         "Manage collections" ] |}.

Definition slack : ParsedAPI.t :=
  {| ParsedAPI.name := str "Slack";
     ParsedAPI.baseUrl := str "https://slack.com/api";
     ParsedAPI.description := str "Team communication and collaboration platform";
     ParsedAPI.authentication :=
       {| Authentication.type := bearer; Authentication.location := undefined;
       Authentication.name := undefined |};
     ParsedAPI.endpoints :=
       [
    {| APIEndpoint.path := "/chat.postMessage";
       APIEndpoint.method := POST;
       APIEndpoint.summary := str "Send message";
       APIEndpoint.description := str "Sends a message to a channel";
       APIEndpoint.parameters :=
         [ {| APIParameter.name := str "channel"; APIParameter.type := str "string";
           APIParameter.required := boolean true;
           APIParameter.description := str "Channel ID or name";
           APIParameter.location := str "body"; APIParameter.example := str "#general" |};
           {| APIParameter.name := str "text"; APIParameter.type := str "string";
           APIParameter.required := boolean true;
           APIParameter.description := str "Message text";
           APIParameter.location := str "body"; APIParameter.example := str "Hello, world!" |};
           {| APIParameter.name := str "username"; APIParameter.type := str "string";
           APIParameter.required := boolean false;
           APIParameter.description := str "Bot username";
           APIParameter.location := str "body"; APIParameter.example := undefined |} ];
       APIEndpoint.responses :=
         [ {| APIResponse.statusCode := Int 200;
           APIResponse.description := str "Message sent";
           APIResponse.example := obj [("ok", JBool true); ("ts", JStr "1234567890.123456")] |} ];
       APIEndpoint.tags := arr [JStr "messaging"] |};
    {| APIEndpoint.path := "/users.list";
       APIEndpoint.method := GET;
       APIEndpoint.summary := str "List users";
       APIEndpoint.description := str "Lists all users in a Slack team";
       APIEndpoint.parameters :=
         [ {| APIParameter.name := str "limit"; APIParameter.type := str "integer";
           APIParameter.required := boolean false;
           APIParameter.description := str "Number of users to return";
           APIParameter.location := str "query"; APIParameter.example := num 100 |} ];
       APIEndpoint.responses :=
         [ {| APIResponse.statusCode := Int 200;
           APIResponse.description := str "List of users";
           APIResponse.example := obj [("ok", JBool true); ("members", JArr [])] |} ];
       APIEndpoint.tags := arr [JStr "users"] |};
    {| APIEndpoint.path := "/channels.list";
       APIEndpoint.method := GET;
       APIEndpoint.summary := str "List channels";
       APIEndpoint.description := str "Lists all channels in a Slack team";
       APIEndpoint.parameters :=
         [ {| APIParameter.name := str "exclude_archived"; APIParameter.type := str "boolean";
           APIParameter.required := boolean false;
           APIParameter.description := str "Exclude archived channels";
           APIParameter.location := str "query"; APIParameter.example := boolean true |} ];
       APIEndpoint.responses :=
         [ {| APIResponse.statusCode := Int 200;
           APIResponse.description := str "List of channels";
           APIResponse.example := obj [("ok", JBool true); ("channels", JArr [])] |} ];
       APIEndpoint.tags := arr [JStr "channels"] |};
    {| APIEndpoint.path := "/files.upload";
       APIEndpoint.method := POST;
       APIEndpoint.summary := str "Upload file";
       APIEndpoint.description := str "Uploads or creates a file";
       APIEndpoint.parameters :=
         [ {| APIParameter.name := str "channels"; APIParameter.type := str "string";
           APIParameter.required := boolean false;
           APIParameter.description := str "Comma-separated list of channel names or IDs";
           APIParameter.location := str "body"; APIParameter.example := undefined |};
           {| APIParameter.name := str "content"; APIParameter.type := str "string";
           APIParameter.required := boolean false;
           APIParameter.description := str "File contents";
           APIParameter.location := str "body"; APIParameter.example := undefined |};
           {| APIParameter.name := str "filename"; APIParameter.type := str "string";
           APIParameter.required := boolean false;
           APIParameter.description := str "Filename of file";
           APIParameter.location := str "body"; APIParameter.example := undefined |} ];
       APIEndpoint.responses :=
         [ {| APIResponse.statusCode := Int 200;
           APIResponse.description := str "File uploaded";
           APIResponse.example := obj [("ok", JBool true); ("file", JObj [("id", JStr "F1234567890")])] |} ];
       APIEndpoint.tags := arr [JStr "files"] |}
       ];
     ParsedAPI.capabilities :=
       [ "Send messages";
         "Manage channels";
         "Handle users";
         "Upload files";
         "Create workflows" ] |}.

End POPULAR_APIS.


(** ** The analyzer ([class APIAnalyzer], lines 323-545) *)
Module APIAnalyzer.

(** *** [detectPopularAPI] (lines 344-360) *)
Definition detectPopularAPI (input : string) : option ParsedAPI.t :=
  let normalizedInput := JSString.toLowerCase input in
  if JSString.includes normalizedInput "stripe"
     || JSString.includes normalizedInput "api.stripe.com"
  then Some POPULAR_APIS.stripe
  else if JSString.includes normalizedInput "shopify"
          || JSString.includes normalizedInput "myshopify.com"
  then Some POPULAR_APIS.shopify
  else if JSString.includes normalizedInput "slack"
          || JSString.includes normalizedInput "slack.com/api"
  then Some POPULAR_APIS.slack
  else None.

(** *** [parseAuthentication] (lines 480-500) *)
Definition default_authentication : Authentication.t :=
  {| Authentication.type := apiKey;
     Authentication.location := undefined;
     Authentication.name := undefined |}.

Definition is_str (v : JSVal) (s : string) : bool :=
  match v with
  | Some (JStr s') => String.eqb s' s
  | _ => false
  end.

Definition parseAuthentication (spec : JSON) : throws Authentication.t :=
  components <- JS.get (Some spec) "components" ;;
  let securitySchemes := JS.get_opt components "securitySchemes" in
  if negb (JS.truthy securitySchemes) then ret default_authentication
  else
    schemes <- JS.Object_values securitySchemes ;;
    let firstScheme := hd_error schemes in
    if is_str (JS.get_opt firstScheme "type") "http"
       && is_str (JS.get_opt firstScheme "scheme") "bearer"
    then ret {| Authentication.type := bearer;
                Authentication.location := undefined;
                Authentication.name := undefined |}
    else if is_str (JS.get_opt firstScheme "type") "apiKey"
    then
      location <- JS.get firstScheme "in" ;;
      name <- JS.get firstScheme "name" ;;
      ret {| Authentication.type := apiKey;
             Authentication.location := location;
             Authentication.name := name |}
    else ret default_authentication.

(** *** [generateCapabilities] (lines 502-525)

    The [Set] is the list of its members in insertion order. *)
Definition Set_add (x : string) (s : list string) : list string :=
  if existsb (String.eqb x) s then s else s ++ [x].

Definition add_tags (caps : list string) (tags : list JSON) : list string :=
  fold_left (fun caps tag => Set_add ("Manage " +++ JS.ToString tag) caps) tags caps.

Definition add_method (caps : list string) (m : Method) : list string :=
  let caps := if Method_eqb m GET then Set_add "Retrieve data" caps else caps in
  let caps := if Method_eqb m POST then Set_add "Create resources" caps else caps in
  let caps := if Method_eqb m PUT || Method_eqb m PATCH
              then Set_add "Update resources" caps else caps in
  let caps := if Method_eqb m DELETE then Set_add "Delete resources" caps else caps in
  caps.

Definition add_endpoint (caps : list string) (endpoint : APIEndpoint.t)
  : throws (list string) :=
  match APIEndpoint.tags endpoint with
  | Some (JArr tags) => ret (add_method (add_tags caps tags) (APIEndpoint.method endpoint))
  | _ => throw TypeError
  end.

Fixpoint add_endpoints (caps : list string) (endpoints : list APIEndpoint.t)
  : throws (list string) :=
  match endpoints with
  | [] => ret caps
  | endpoint :: rest =>
      caps' <- add_endpoint caps endpoint ;;
      add_endpoints caps' rest
  end.

Definition generateCapabilities (endpoints : list APIEndpoint.t) : throws (list string) :=
  add_endpoints [] endpoints.

(** *** [parseOpenAPISpec] (lines 381-455), after [JSON.parse] *)

(** [['get', 'post', 'put', 'delete', 'patch'].includes(method)], with the
    value of [method.toUpperCase()] when it holds *)
Definition http_method (method : string) : option Method :=
  if String.eqb method "get" then Some GET
  else if String.eqb method "post" then Some POST
  else if String.eqb method "put" then Some PUT
  else if String.eqb method "delete" then Some DELETE
  else if String.eqb method "patch" then Some PATCH
  else None.

(** lines 394-401 *)
Definition declared_parameter (param : JSON) : throws APIParameter.t :=
  name <- JS.get (Some param) "name" ;;
  type <- JS.get (Some param) "type" ;;
  required <- JS.get (Some param) "required" ;;
  description <- JS.get (Some param) "description" ;;
  location <- JS.get (Some param) "in" ;;
  example <- JS.get (Some param) "example" ;;
  ret {| APIParameter.name := name;
         APIParameter.type := JS.or type (str "string");
         APIParameter.required := JS.or required (boolean false);
         APIParameter.description := JS.or description (str EmptyString);
         APIParameter.location := location;
         APIParameter.example := example |}.

(** lines 392-403 *)
Definition declared_parameters (methodObj : JSON) : throws (list APIParameter.t) :=
  parameters <- JS.get (Some methodObj) "parameters" ;;
  if JS.truthy parameters then
    match parameters with
    | Some (JArr params) => forEach declared_parameter params
    | _ => throw TypeError
    end
  else ret [].

(** [requiredProperties.includes(name)] *)
Definition includes_name (requiredProperties : list JSON) (name : string) : bool :=
  existsb (fun x => match x with JStr s => String.eqb s name | _ => false end)
          requiredProperties.

(** lines 412-419 *)
Definition body_parameter (requiredProperties : list JSON) (entry : string * JSON)
  : throws APIParameter.t :=
  let '(name, prop) := entry in
  type <- JS.get (Some prop) "type" ;;
  description <- JS.get (Some prop) "description" ;;
  example <- JS.get (Some prop) "example" ;;
  ret {| APIParameter.name := str name;
         APIParameter.type := JS.or type (str "string");
         APIParameter.required := boolean (includes_name requiredProperties name);
         APIParameter.description := JS.or description (str EmptyString);
         APIParameter.location := str "body";
         APIParameter.example := example |}.

(** lines 410-420 *)
Definition schema_parameters (schema : JSVal) : throws (list APIParameter.t) :=
  declares <- JS.has_property "required" schema ;;
  required <- (if declares then JS.get schema "required" else ret undefined) ;;
  let requiredProperties :=
    match required with
    | Some (JArr names) => names
    | _ => []
    end in
  properties <- JS.get schema "properties" ;;
  entries <- JS.Object_entries (JS.or properties (obj [])) ;;
  forEach (body_parameter requiredProperties) entries.

(** lines 406-422 *)
Definition body_parameters (methodObj : JSON) : throws (list APIParameter.t) :=
  requestBody <- JS.get (Some methodObj) "requestBody" ;;
  let content := JS.get_opt requestBody "content" in
  if JS.truthy content then
    jsonContent <- JS.get content "application/json" ;;
    let schema := JS.get_opt jsonContent "schema" in
    if JS.truthy schema then schema_parameters schema else ret []
  else ret [].

(** lines 427-431 *)
Definition declared_response (entry : string * JSON) : throws APIResponse.t :=
  let '(code, response) := entry in
  description <- JS.get (Some response) "description" ;;
  content <- JS.get (Some response) "content" ;;
  let example := JS.get_opt (JS.get_opt content "application/json") "example" in
  ret {| APIResponse.statusCode := parseInt code;
         APIResponse.description := JS.or description (str EmptyString);
         APIResponse.example := example |}.

(** lines 425-432 *)
Definition declared_responses (methodObj : JSON) : throws (list APIResponse.t) :=
  responses <- JS.get (Some methodObj) "responses" ;;
  entries <- JS.Object_entries (JS.or responses (obj [])) ;;
  forEach declared_response entries.

(** lines 388-443: the endpoints one member of a path item Spec.adds *)
Definition operation (path : string) (entry : string * JSON)
  : throws (list APIEndpoint.t) :=
  let '(method, methodObj) := entry in
  match http_method method with
  | Some m =>
      declared <- declared_parameters methodObj ;;
      body <- body_parameters methodObj ;;
      responses <- declared_responses methodObj ;;
      summary <- JS.get (Some methodObj) "summary" ;;
      description <- JS.get (Some methodObj) "description" ;;
      tags <- JS.get (Some methodObj) "tags" ;;
      ret [ {| APIEndpoint.path := path;
               APIEndpoint.method := m;
               APIEndpoint.summary := JS.or summary (str EmptyString);
               APIEndpoint.description := JS.or description (str EmptyString);
               APIEndpoint.parameters := declared ++ body;
               APIEndpoint.responses := responses;
               APIEndpoint.tags := JS.or tags (arr []) |} ]
  | None => ret []
  end.

(** lines 386-445 *)
Definition path_item (entry : string * JSON) : throws (list APIEndpoint.t) :=
  let '(path, pathObj) := entry in
  methods <- JS.Object_entries (Some pathObj) ;;
  added <- forEach (operation path) methods ;;
  ret (concat added).

Definition parse_paths (parsed : JSON) : throws (list APIEndpoint.t) :=
  paths <- JS.get (Some parsed) "paths" ;;
  entries <- JS.Object_entries (JS.or paths (obj [])) ;;
  added <- forEach path_item entries ;;
  ret (concat added).

Definition parseOpenAPIDocument (parsed : JSON) : throws ParsedAPI.t :=
  endpoints <- parse_paths parsed ;;
  info <- JS.get (Some parsed) "info" ;;
  servers <- JS.get (Some parsed) "servers" ;;
  authentication <- parseAuthentication parsed ;;
  capabilities <- generateCapabilities endpoints ;;
  ret {| ParsedAPI.name := JS.or (JS.get_opt info "title") (str "Unknown API");
         ParsedAPI.baseUrl := JS.or (JS.get_opt (JS.get_opt servers "0") "url") (str EmptyString);
         ParsedAPI.description := JS.or (JS.get_opt info "description") (str EmptyString);
         ParsedAPI.endpoints := endpoints;
         ParsedAPI.authentication := authentication;
         ParsedAPI.capabilities := capabilities |}.

(** *** [analyzeAPIFromURL] (lines 457-478) *)
Definition analyzeAPIFromURL (url : string) : ParsedAPI.t :=
  {| ParsedAPI.name := str "Custom API";
     ParsedAPI.baseUrl := str url;
     ParsedAPI.description := str "Custom API endpoint";
     ParsedAPI.endpoints :=
       [ {| APIEndpoint.path := "/";
            APIEndpoint.method := GET;
            APIEndpoint.summary := str "Root endpoint";
            APIEndpoint.description := str "Main API endpoint";
            APIEndpoint.parameters := [];
            APIEndpoint.responses :=
              [ {| APIResponse.statusCode := Int 200;
                   APIResponse.description := str "Success";
                   APIResponse.example := undefined |} ];
            APIEndpoint.tags := arr [JStr "general"] |} ];
     ParsedAPI.authentication := default_authentication;
     ParsedAPI.capabilities := ["General API operations"] |}.

(** *** [generateNaturalLanguageDescription] (lines 527-544) *)

(** [acc[method] = (acc[method] || 0) + 1] on the object [acc], whose keys
    are method names, kept in creation order *)
Fixpoint count_method (m : Method) (acc : list (Method * nat)) : list (Method * nat) :=
  match acc with
  | [] => [(m, 1)]
  | (m', c) :: r =>
      if Method_eqb m m' then (m', c + 1) :: r else (m', c) :: count_method m r
  end.

Definition method_counts (endpoints : list APIEndpoint.t) : list (Method * nat) :=
  fold_left (fun acc endpoint => count_method (APIEndpoint.method endpoint) acc)
            endpoints [].

Definition method_phrase (entry : Method * nat) : string :=
  let '(method, count) := entry in
  JSString.of_nat count +++ " " +++ Method_to_string method +++ " endpoint"
    +++ (if (1 <? count)%nat then "s" else EmptyString).

Definition generateNaturalLanguageDescription (api : ParsedAPI.t) : string :=
  let name := ParsedAPI.name api in
  let description := ParsedAPI.description api in
  let capabilities := ParsedAPI.capabilities api in
  let endpoints := ParsedAPI.endpoints api in
  let desc := JS.ToStringV name +++ " is " +++ JS.ToStringV description +++ ". " in
  let desc := desc +++ "It provides " +++ JSString.of_nat (length capabilities)
                +++ " main capabilities: " +++ JSString.join ", " capabilities +++ ". " in
  let desc := desc +++ "The API has " +++ JSString.of_nat (length endpoints)
                +++ " endpoints available for integration. " in
  let methods := method_counts endpoints in
  let desc := desc +++ "Available operations include: " in
  let desc := desc +++ JSString.join ", " (map method_phrase methods) in
  let desc := desc +++ "." in
  desc.

(** *** The entry point, over the two parsers of the platform *)
Section Platform.

(** [JSON.parse]: [None] when it throws its [SyntaxError] *)
Variable JSON_parse : string -> option JSON.
(** [new URL(input)]: [false] when it throws *)
Variable URL_parses : string -> bool.

(** [isOpenAPISpec] (lines 362-370) *)
Definition isOpenAPISpec (input : string) : JSVal :=
  match JSON_parse input with
  | None => boolean false
  | Some parsed =>
      match (openapi <- JS.get (Some parsed) "openapi" ;;
             swagger <- JS.get (Some parsed) "swagger" ;;
             ret (JS.or openapi swagger)) with
      | inr v => v
      | inl _ => boolean false
      end
  end.

(** [isURL] (lines 372-379) *)
Definition isURL (input : string) : bool := URL_parses input.

(** [parseOpenAPISpec] (lines 381-455) *)
Definition parseOpenAPISpec (spec : string) : throws ParsedAPI.t :=
  match JSON_parse spec with
  | None => throw SyntaxError
  | Some parsed => parseOpenAPIDocument parsed
  end.

Definition unable_to_analyze : exn :=
  Error "Unable to analyze API. Please provide a valid URL or OpenAPI specification.".

(** [analyzeAPI] (lines 324-342); a rejected promise is a thrown
    exception *)
Definition analyzeAPI (input : string) : throws ParsedAPI.t :=
  match detectPopularAPI input with
  | Some popularAPI => ret popularAPI
  | None =>
      if JS.truthy (isOpenAPISpec input) then parseOpenAPISpec input
      else if isURL input then ret (analyzeAPIFromURL input)
      else throw unable_to_analyze
  end.

End Platform.

End APIAnalyzer.


(** ** The builder page ([src/app/builder/page.tsx], lines 27-60, 222-250)

    The part of the page's state that the API tab reads and writes, and the
    three handlers that change it. A handler is the state it leaves once
    it has run to its end. *)
Module BuilderPage.

Record State : Type := make
  { apiEndpoint : string;
    selectedAPI : string;
    parsedAPI : option ParsedAPI.t;
    isAnalyzing : bool }.

(** lines 28-36 *)
Definition initial : State :=
{| apiEndpoint := EmptyString;
   selectedAPI := EmptyString;
   parsedAPI := None;
   isAnalyzing := false |}.

Record PopularAPI : Type := popular
  { id : string;
    name : string;
    description : string;
    url : string }.

(** lines 41-45 *)
Definition popularAPIs : list PopularAPI :=
[ {| id := "stripe"; name := "Stripe"; description := "Payment processing";
     url := "https://api.stripe.com/v1" |};
  {| id := "shopify"; name := "Shopify"; description := "E-commerce platform";
     url := "https://{shop}.myshopify.com/admin/api/2023-10" |};
  {| id := "slack"; name := "Slack"; description := "Team communication";
     url := "https://slack.com/api" |} ].

(** [!s] for a string *)
Definition empty (s : string) : bool := String.eqb s EmptyString.

(** The button of a popular API (lines 227-230) *)
Definition selectPopularAPI (api : PopularAPI) (s : State) : State :=
{| apiEndpoint := url api;
   selectedAPI := id api;
   parsedAPI := parsedAPI s;
   isAnalyzing := isAnalyzing s |}.

(** The endpoint input (line 248) *)
Definition changeEndpoint (value : string) (s : State) : State :=
{| apiEndpoint := value;
   selectedAPI := selectedAPI s;
   parsedAPI := parsedAPI s;
   isAnalyzing := isAnalyzing s |}.

Section Platform.

Variable JSON_parse : string -> option JSON.
Variable URL_parses : string -> bool.

(** [handleAnalyzeAPI] (lines 47-60) *)
Definition handleAnalyzeAPI (s : State) : State :=
if empty (apiEndpoint s) && empty (selectedAPI s) then s
else
  let input := if empty (selectedAPI s) then apiEndpoint s else selectedAPI s in
  match APIAnalyzer.analyzeAPI JSON_parse URL_parses input with
  | inr analyzed =>
      {| apiEndpoint := apiEndpoint s;
         selectedAPI := selectedAPI s;
         parsedAPI := Some analyzed;
         isAnalyzing := false |}
  | inl _ =>
      {| apiEndpoint := apiEndpoint s;
         selectedAPI := selectedAPI s;
         parsedAPI := parsedAPI s;
         isAnalyzing := false |}
  end.

(** What the user does on the API tab *)
Inductive Event : Type :=
| Select (api : PopularAPI)
| Change (value : string)
| Analyze.

Definition handle (s : State) (e : Event) : State :=
match e with
| Select api => selectPopularAPI api s
| Change value => changeEndpoint value s
| Analyze => handleAnalyzeAPI s
end.

Definition run (events : list Event) : State := fold_left handle events initial.

(** The buttons offer the popular APIs only. *)
Definition offered (e : Event) : Prop :=
match e with
| Select api => In api popularAPIs
| _ => True
end.

End Platform.

End BuilderPage.

(** A computation raises nothing but [TypeError]s. *)
Definition raises_only_TypeError {A} (c : throws A) : Prop :=
forall e, c = inl e -> e = TypeError.

(** A computation returns when it ends with a value. *)
Definition returns {A} (c : throws A) : Prop := exists a, c = inr a.

(** ** The design document's vocabulary

    Definitions that follow the wording of the design document; the
    properties below compare the analyzer with them. *)
Module Spec.

Inductive Vendor : Type := Stripe | Shopify | Slack.

(** The signature substrings of a vendor *)
Definition signatures (v : Vendor) : list string :=
  match v with
  | Stripe => ["stripe"; "api.stripe.com"]
  | Shopify => ["shopify"; "myshopify.com"]
  | Slack => ["slack"; "slack.com/api"]
  end.

(** The catalog record of a vendor *)
Definition record (v : Vendor) : ParsedAPI.t :=
  match v with
  | Stripe => POPULAR_APIS.stripe
  | Shopify => POPULAR_APIS.shopify
  | Slack => POPULAR_APIS.slack
  end.

(** The order in which the vendors are checked *)
Definition check_order : list Vendor := [Stripe; Shopify; Slack].

Definition rank (v : Vendor) : nat :=
  match v with
  | Stripe => 0
  | Shopify => 1
  | Slack => 2
  end.

(** The lower-cased input contains a signature of the vendor. *)
Definition mentions (input : string) (v : Vendor) : bool :=
  existsb (JSString.includes (JSString.toLowerCase input)) (signatures v).

(** The members of a list in the order of their first occurrence *)
Fixpoint first_occurrences {A} (eqb : A -> A -> bool) (l : list A) : list A :=
match l with
| [] => []
| x :: r => x :: filter (fun y => negb (eqb x y)) (first_occurrences eqb r)
end.

(** The capability label of a method *)
Definition method_capability (m : Method) : string :=
match m with
| GET => "Retrieve data"
| POST => "Create resources"
| PUT => "Update resources"
| PATCH => "Update resources"
| DELETE => "Delete resources"
end.

(** The labels one endpoint contributes: one per tag, then the label of
    its method *)
Definition tag_list (endpoint : APIEndpoint.t) : list JSON :=
match APIEndpoint.tags endpoint with
| Some (JArr tags) => tags
| _ => []
end.

Definition endpoint_labels (endpoint : APIEndpoint.t) : list string :=
map (fun tag => "Manage " +++ JS.ToString tag) (tag_list endpoint)
  ++ [method_capability (APIEndpoint.method endpoint)].

Definition labels (endpoints : list APIEndpoint.t) : list string :=
flat_map endpoint_labels endpoints.

(** The endpoint's tags are an array, as its type says. *)
Definition tagged (endpoint : APIEndpoint.t) : bool :=
JS.isArray (APIEndpoint.tags endpoint).

(** How many endpoints use a method *)
Definition uses (m : Method) (endpoints : list APIEndpoint.t) : nat :=
length (filter (fun e => Method_eqb m (APIEndpoint.method e)) endpoints).

(** The breakdown by method: each method used, in the order of its first
    use, with the number of endpoints that use it *)
Definition breakdown (endpoints : list APIEndpoint.t) : list (Method * nat) :=
map (fun m => (m, uses m endpoints))
    (first_occurrences Method_eqb (map APIEndpoint.method endpoints)).

(** "n METHOD endpoint", in the plural when n is more than one *)
Definition phrase (entry : Method * nat) : string :=
JSString.of_nat (snd entry) +++ " " +++ Method_to_string (fst entry) +++
  (if (snd entry =? 1)%nat then " endpoint" else " endpoints").

(** The summary sentence built from a breakdown *)
Definition summary (api : ParsedAPI.t) (groups : list (Method * nat)) : string :=
JS.ToStringV (ParsedAPI.name api) +++ " is "
  +++ JS.ToStringV (ParsedAPI.description api) +++ ". It provides "
  +++ JSString.of_nat (length (ParsedAPI.capabilities api))
  +++ " main capabilities: "
  +++ JSString.join ", " (ParsedAPI.capabilities api)
  +++ ". The API has "
  +++ JSString.of_nat (length (ParsedAPI.endpoints api))
  +++ " endpoints available for integration. Available operations include: "
  +++ JSString.join ", " (map phrase groups) +++ ".".

(** Adding a sequence of labels to a set, one after the other *)
Definition adds (caps : list string) (xs : list string) : list string :=
fold_left (fun acc x => APIAnalyzer.Set_add x acc) xs caps.

(** The members of a value that may be missing: those of [v || {}] *)
Definition members (v : JSVal) : list (string * JSON) :=
match JS.Object_entries v with
| inr entries => entries
| inl _ => []
end.

(** The five verbs of the [method] enumeration, as a document spells them *)
Definition is_http_verb (key : string) : bool :=
existsb (String.eqb key) ["get"; "post"; "put"; "delete"; "patch"].

(** The (path, method) pairs of a document's [paths] mapping *)
Definition path_method_pairs (parsed : JSON) : list (string * string) :=
flat_map (fun item => map (fun op => (fst item, fst op)) (members (Some (snd item))))
         (members (JS.get_opt (Some parsed) "paths")).

(** The JSON request body schema of an operation *)
Definition json_body_schema (methodObj : JSON) : JSVal :=
JS.get_opt
  (JS.get_opt (JS.get_opt (JS.get_opt (Some methodObj) "requestBody") "content")
              "application/json")
  "schema".

(** The security schemes of a document, and the first of them: as the
    document declares them, and as the run time enumerates them *)
Definition security_schemes (parsed : JSON) : JSVal :=
JS.get_opt (JS.get_opt (Some parsed) "components") "securitySchemes".

Definition first_declared_scheme (parsed : JSON) : JSVal :=
match security_schemes parsed with
| Some (JObj declared) => hd_error (map snd declared)
| _ => undefined
end.

Definition first_enumerated_scheme (parsed : JSON) : JSVal :=
hd_error (map snd (members (security_schemes parsed))).

Definition bearer_authentication : Authentication.t :=
{| Authentication.type := bearer;
   Authentication.location := undefined;
   Authentication.name := undefined |}.

(** A (path, method) pair, as a document spells it and as an endpoint
    records it *)
Definition endpoint_key (e : APIEndpoint.t) : string * string :=
(APIEndpoint.path e, Method_to_string (APIEndpoint.method e)).

Definition recorded (pair : string * string) : string * string :=
(fst pair, JSString.toUpperCase (snd pair)).

(** The value is an object; an array is one. *)
Definition is_object (v : JSVal) : bool :=
match v with
| Some (JObj _) => true
| Some (JArr _) => true
| _ => false
end.

(** The names a schema lists as required; none when it has no such list *)
Definition required_names (schema : JSVal) : list JSON :=
match JS.get_opt schema "required" with
| Some (JArr names) => names
| _ => []
end.

(** The parameter that a property of a request body schema becomes *)
Definition body_parameter_of (schema : JSVal) (property : string * JSON)
           (p : APIParameter.t) : Prop :=
let declared := Some (snd property) in
APIParameter.name p = str (fst property)
/\ APIParameter.location p = str "body"
/\ (APIParameter.required p = boolean true
      /\ In (JStr (fst property)) (required_names schema)
    \/ APIParameter.required p = boolean false
       /\ ~ In (JStr (fst property)) (required_names schema))
/\ APIParameter.type p = JS.or (JS.get_opt declared "type") (str "string")
/\ (JS.get_opt declared "type" = undefined -> APIParameter.type p = str "string")
/\ APIParameter.description p
   = JS.or (JS.get_opt declared "description") (str EmptyString)
/\ (JS.get_opt declared "description" = undefined ->
    APIParameter.description p = str EmptyString)
/\ APIParameter.example p = JS.get_opt declared "example".

(** The response that a member of [responses] becomes *)
Definition response_of (declared : string * JSON) (r : APIResponse.t) : Prop :=
let response := Some (snd declared) in
APIResponse.statusCode r = parseInt (fst declared)
/\ APIResponse.description r
   = JS.or (JS.get_opt response "description") (str EmptyString)
/\ (JS.get_opt response "description" = undefined ->
    APIResponse.description r = str EmptyString)
/\ APIResponse.example r
   = JS.get_opt (JS.get_opt (JS.get_opt response "content") "application/json")
                "example".

(** *** Documents the transform accepts

    What the transform relies on without checking it: where it reads a
    member of a value, the value is not [null]; where it loops over a
    value, the value is an array; where it asks whether a schema has a
    [required] member, the schema is an object. *)
Definition non_null (j : JSON) : bool :=
match j with
| JNull => false
| _ => true
end.

Definition accepts_parameters (methodObj : JSON) : bool :=
let parameters := JS.get_opt (Some methodObj) "parameters" in
negb (JS.truthy parameters)
|| match parameters with
   | Some (JArr params) => forallb non_null params
   | _ => false
   end.








(** The parameter that a declared parameter becomes *)
Definition parameter_of (param : JSON) (p : APIParameter.t) : Prop :=
let declared := Some param in
APIParameter.name p = JS.get_opt declared "name"
/\ APIParameter.location p = JS.get_opt declared "in"
/\ APIParameter.type p = JS.or (JS.get_opt declared "type") (str "string")
/\ APIParameter.required p = JS.or (JS.get_opt declared "required") (boolean false)
/\ APIParameter.description p
   = JS.or (JS.get_opt declared "description") (str EmptyString)
/\ APIParameter.example p = JS.get_opt declared "example"
/\ (JS.get_opt declared "type" = undefined -> APIParameter.type p = str "string")
/\ (JS.get_opt declared "required" = undefined ->
    APIParameter.required p = boolean false)
/\ (JS.get_opt declared "description" = undefined ->
    APIParameter.description p = str EmptyString).

(** The value of the last member a document declares under a key *)
Fixpoint last_declared (k : string) (members : list (string * JSON)) : JSVal :=
match members with
| [] => undefined
| (k', v) :: r =>
    match last_declared k r with
    | Some w => Some w
    | None => if String.eqb k k' then Some v else undefined
    end
end.

End Spec.

(** ** A sample platform

    Stand-ins for [JSON.parse] and [new URL] that answer as the platform does
    on the few texts used in the examples below. *)
Module Sample.

Definition quoted (s : string) : string :=
  String "034"%char s +++ String "034"%char EmptyString.

(** The text of a document that declares a version and nothing else *)
Definition petstore_text : string :=
  "{" +++ quoted "openapi" +++ ":" +++ quoted "3.0.0" +++ "}".

Definition petstore : JSON := JObj [("openapi", JStr "3.0.0")].

Definition JSON_parse (text : string) : option JSON :=
  if String.eqb text petstore_text then Some petstore
  else if String.eqb text "null" then Some JNull
  else if String.eqb text "{}" then Some (JObj [])
  else None.

Definition URL_parses (text : string) : bool :=
  String.eqb text "http://x" || String.eqb text "https://example.com/api".

Definition endpoint_with (m : Method) : APIEndpoint.t :=
{| APIEndpoint.path := "/orders";
   APIEndpoint.method := m;
   APIEndpoint.summary := str EmptyString;
   APIEndpoint.description := str EmptyString;
   APIEndpoint.parameters := [];
   APIEndpoint.responses := [];
   APIEndpoint.tags := arr [JStr "orders"] |}.

Definition api_with (methods : list Method) : ParsedAPI.t :=
{| ParsedAPI.name := str "Orders";
   ParsedAPI.baseUrl := str "https://orders.example";
   ParsedAPI.description := str "an order service";
   ParsedAPI.endpoints := map endpoint_with methods;
   ParsedAPI.authentication := APIAnalyzer.default_authentication;
   ParsedAPI.capabilities := ["Manage orders"] |}.

(** An operation whose JSON request body has the schema
    [{type: "object", properties: {a: {type: "integer"}}, required: ["a"]}],
    and which declares a query parameter and two responses *)
Definition body_schema : JSON :=
JObj [("type", JStr "object");
      ("properties", JObj [("a", JObj [("type", JStr "integer")])]);
      ("required", JArr [JStr "a"])].

Definition create_order : JSON :=
JObj [("summary", JStr "Create an order");
      ("parameters", JArr [JObj [("name", JStr "dryRun"); ("in", JStr "query")]]);
      ("requestBody",
        JObj [("content", JObj [("application/json", JObj [("schema", body_schema)])])]);
      ("responses",
        JObj [("default", JObj [("description", JStr "Unexpected error")]);
              ("201", JObj [("description", JStr "Created");
                            ("content",
                              JObj [("application/json",
                                     JObj [("example", JObj [("id", JNum 7)])])])]);
              ("400", JObj [])]);
      ("tags", JArr [JStr "orders"])].

(** A document with three operations under the five verbs and two members
    under other keys; its second security scheme has a numeral for name *)
Definition orders_members : list (string * JSON) :=
[("openapi", JStr "3.0.0");
 ("info", JObj [("title", JStr "Orders")]);
 ("paths",
   JObj [("/orders", JObj [("get", JObj [("tags", JArr [JStr "orders"])]);
                           ("post", create_order);
                           ("options", JObj []);
                           ("head", JObj [])]);
         ("/orders/{id}", JObj [("delete", JObj [])])]);
 ("components",
   JObj [("securitySchemes",
          JObj [("token", JObj [("type", JStr "http"); ("scheme", JStr "bearer")]);
                ("0", JObj [("type", JStr "apiKey"); ("in", JStr "header");
                            ("name", JStr "X-API-Key")])])])].

Definition orders_document : JSON := JObj orders_members.

(** What the transform makes of [orders_document] *)
Definition orders_api : ParsedAPI.t :=
Eval vm_compute in
  match APIAnalyzer.parseOpenAPIDocument orders_document with
  | inr api => api
  | inl _ => APIAnalyzer.analyzeAPIFromURL EmptyString
  end.

End Sample.

(** * Properties *)

(** ** The run-time operations at work *)

Example own_entries_order :
  JS.own_entries [("b", JNum 1); ("10", JNum 2); ("a", JNum 3); ("2", JNum 4); ("b", JNum 5)]
  = [("2", JNum 4); ("10", JNum 2); ("b", JNum 5); ("a", JNum 3)].
Proof. reflexivity. Qed.

Example parseInt_examples :
  (parseInt "200", parseInt "default", parseInt "2XX", parseInt " -0x1F", parseInt "0x")
  = (Int 200, NaN, Int 2, Int (-31), NaN).
Proof. reflexivity. Qed.

Example ToString_examples :
  JS.ToString (JArr [JNum 1; JNull; JArr [JStr "a"; JBool true]; JObj []])
  = "1,,a,true,[object Object]".
Proof. reflexivity. Qed.

Example orders_api_transformed :
  APIAnalyzer.parseOpenAPIDocument Sample.orders_document = inr Sample.orders_api.
Proof. reflexivity. Qed.

Example stripe_described :
  APIAnalyzer.generateNaturalLanguageDescription POPULAR_APIS.stripe
  = "Stripe is Payment processing and subscription management. "
    +++ "It provides 5 main capabilities: Process payments, Manage customers, "
    +++ "Handle subscriptions, Create invoices, Manage payment methods. "
    +++ "The API has 4 endpoints available for integration. "
    +++ "Available operations include: 2 GET endpoints, 2 POST endpoints.".
Proof. reflexivity. Qed.

(** ** The run-time operations *)

Lemma prefix_append (p s : string) :
  prefix p s = true <-> exists r, s = p +++ r.
Proof.
  revert s; induction p as [|c p IH]; intros s.
  - split; [intros _; now exists s | destruct s; reflexivity].
  - destruct s as [|d s]; simpl.
    + split; [discriminate | intros [r Hr]; discriminate].
    + destruct (ascii_dec c d) as [->|Hcd].
      * rewrite IH. split; intros [r Hr]; exists r.
        -- now rewrite Hr.
        -- now injection Hr.
      * split; [discriminate | intros [r Hr]; injection Hr; congruence].
Qed.

Lemma includes_here (sub r : string) : JSString.includes (sub +++ r) sub = true.
Proof.
  assert (H : prefix sub (sub +++ r) = true) by (apply prefix_append; now exists r).
  destruct (sub +++ r); cbn [JSString.includes]; now rewrite H.
Qed.

Lemma includes_append (a sub b : string) :
  JSString.includes (a +++ sub +++ b) sub = true.
Proof.
  induction a as [|c a IH].
  - cbn [String.append]. apply includes_here.
  - change (JSString.includes (String c (a +++ sub +++ b)) sub = true).
    cbn [JSString.includes].
    destruct (prefix sub (String c (a +++ sub +++ b))); [reflexivity | exact IH].
Qed.

Lemma includes_inv (s sub : string) :
  JSString.includes s sub = true -> exists a b, s = a +++ sub +++ b.
Proof.
  induction s as [|c s IH]; cbn [JSString.includes].
  - destruct (prefix sub EmptyString) eqn:Hp; [|discriminate].
    intros _. apply prefix_append in Hp as [r Hr]. now exists EmptyString, r.
  - destruct (prefix sub (String c s)) eqn:Hp.
    + intros _. apply prefix_append in Hp as [r Hr]. now exists EmptyString, r.
    + intros H. destruct (IH H) as (a & b & ->). now exists (String c a), b.
Qed.


Lemma rot_ret {A} (a : A) : raises_only_TypeError (ret a).
Proof. intros e H; discriminate. Qed.

Lemma rot_throw {A} : raises_only_TypeError (@throw A TypeError).
Proof. intros e H; now injection H. Qed.

Lemma rot_bind {A B} (c : throws A) (k : A -> throws B) :
  raises_only_TypeError c -> (forall a, raises_only_TypeError (k a)) ->
  raises_only_TypeError (bind c k).
Proof.
  intros Hc Hk e. destruct c as [e'|a]; simpl.
  - intros H. apply Hc. now injection H as ->.
  - apply Hk.
Qed.

Lemma rot_forEach {A B} (f : A -> throws B) (xs : list A) :
  (forall x, raises_only_TypeError (f x)) -> raises_only_TypeError (forEach f xs).
Proof.
  intros Hf. induction xs as [|x r IH]; simpl.
  - apply rot_ret.
  - apply rot_bind; [apply Hf|]. intros y.
    apply rot_bind; [exact IH|]. intros ys. apply rot_ret.
Qed.

Lemma rot_get (v : JSVal) (k : string) : raises_only_TypeError (JS.get v k).
Proof.
  destruct v as [[| | | s | l | m]|]; simpl;
    try destruct (JS.array_index k); auto using rot_ret, rot_throw.
Qed.

Lemma rot_Object_entries (v : JSVal) : raises_only_TypeError (JS.Object_entries v).
Proof. destruct v as [[| | | | |]|]; simpl; auto using rot_ret, rot_throw. Qed.

Lemma rot_has_property (k : string) (v : JSVal) :
  raises_only_TypeError (JS.has_property k v).
Proof. destruct v as [[| | | | |]|]; simpl; auto using rot_ret, rot_throw. Qed.

Create HintDb rot discriminated.
#[local] Hint Resolve rot_ret rot_throw rot_get rot_Object_entries
  rot_has_property : rot.

Ltac rot :=
  repeat first
    [ apply rot_ret
    | apply rot_throw
    | apply rot_get
    | apply rot_Object_entries
    | apply rot_has_property
    | apply rot_bind; [ | intros ? ]
    | apply rot_forEach; intros ?
    | match goal with
      | |- raises_only_TypeError (if ?b then _ else _) => destruct b
      | |- raises_only_TypeError (let '(_, _) := ?p in _) => destruct p
      | |- raises_only_TypeError (match ?x with _ => _ end) => destruct x
      end ].

Lemma rot_parseAuthentication (spec : JSON) :
  raises_only_TypeError (APIAnalyzer.parseAuthentication spec).
Proof.
  unfold APIAnalyzer.parseAuthentication, JS.Object_values. rot.
Qed.

Lemma rot_add_endpoints (endpoints : list APIEndpoint.t) (caps : list string) :
  raises_only_TypeError (APIAnalyzer.add_endpoints caps endpoints).
Proof.
  revert caps; induction endpoints as [|e r IH]; intros caps; simpl.
  - apply rot_ret.
  - apply rot_bind; [|intros; apply IH].
    unfold APIAnalyzer.add_endpoint.
    destruct (APIEndpoint.tags e) as [[| | | | |]|]; auto with rot.
Qed.

Lemma rot_operation (path : string) (entry : string * JSON) :
  raises_only_TypeError (APIAnalyzer.operation path entry).
Proof.
  unfold APIAnalyzer.operation, APIAnalyzer.declared_parameters,
    APIAnalyzer.body_parameters, APIAnalyzer.declared_responses,
    APIAnalyzer.schema_parameters, APIAnalyzer.declared_response,
    APIAnalyzer.body_parameter, APIAnalyzer.declared_parameter.
  rot.
Qed.

Lemma rot_parse_paths (parsed : JSON) :
  raises_only_TypeError (APIAnalyzer.parse_paths parsed).
Proof.
  unfold APIAnalyzer.parse_paths, APIAnalyzer.path_item.
  rot. apply rot_operation.
Qed.

Lemma rot_parseOpenAPIDocument (parsed : JSON) :
  raises_only_TypeError (APIAnalyzer.parseOpenAPIDocument parsed).
Proof.
  unfold APIAnalyzer.parseOpenAPIDocument, APIAnalyzer.generateCapabilities.
  apply rot_bind; [apply rot_parse_paths|]. intros endpoints.
  apply rot_bind; [apply rot_get|]. intros info.
  apply rot_bind; [apply rot_get|]. intros servers.
  apply rot_bind; [apply rot_parseAuthentication|]. intros authentication.
  apply rot_bind; [apply rot_add_endpoints|]. intros capabilities.
  apply rot_ret.
Qed.

(** ** Classification ([analyzeAPI], [detectPopularAPI]) *)

(** [detectPopularAPI] answers the record of the first vendor, in the check
    order, of which the lower-cased input contains a signature. *)
Lemma detectPopularAPI_first_mentioned (input : string) :
  APIAnalyzer.detectPopularAPI input
  = option_map Spec.record (find (Spec.mentions input) Spec.check_order).
Proof.
  unfold APIAnalyzer.detectPopularAPI, Spec.mentions, Spec.check_order.
  cbn [find Spec.signatures existsb].
  repeat rewrite orb_false_r.
  destruct (_ || _); [reflexivity|].
  destruct (_ || _); [reflexivity|].
  destruct (_ || _); reflexivity.
Qed.

Section Classification.

Variable JSON_parse : string -> option JSON.
Variable URL_parses : string -> bool.

Let analyzeAPI := APIAnalyzer.analyzeAPI JSON_parse URL_parses.
Let isOpenAPISpec := APIAnalyzer.isOpenAPISpec JSON_parse.
Let parseOpenAPISpec := APIAnalyzer.parseOpenAPISpec JSON_parse.
Let isURL := APIAnalyzer.isURL URL_parses.

Lemma isOpenAPISpec_parses (input : string) :
  JS.truthy (isOpenAPISpec input) = true ->
  exists parsed, JSON_parse input = Some parsed.
Proof.
  unfold isOpenAPISpec, APIAnalyzer.isOpenAPISpec.
  destruct (JSON_parse input) as [parsed|]; [now exists parsed | discriminate].
Qed.

Lemma rot_parseOpenAPISpec (input : string) :
  JS.truthy (isOpenAPISpec input) = true ->
  raises_only_TypeError (parseOpenAPISpec input).
Proof.
  intros H. destruct (isOpenAPISpec_parses _ H) as [parsed Hp].
  unfold parseOpenAPISpec, APIAnalyzer.parseOpenAPISpec. rewrite Hp.
  apply rot_parseOpenAPIDocument.
Qed.

(** C1. The three strategies are tried in the order vendor, OpenAPI
    document, URL, and the first that applies decides the result;
    [analyzeAPI] fails with its own error exactly when none applies; a
    text that [JSON.parse] rejects is not an OpenAPI document, and the
    [SyntaxError] never reaches the caller. *)
Theorem analyzeAPI_classification (input : string) :
  (forall api, APIAnalyzer.detectPopularAPI input = Some api ->
               analyzeAPI input = inr api)
  /\ (APIAnalyzer.detectPopularAPI input = None ->
      JS.truthy (isOpenAPISpec input) = true ->
      analyzeAPI input = parseOpenAPISpec input)
  /\ (APIAnalyzer.detectPopularAPI input = None ->
      JS.truthy (isOpenAPISpec input) = false ->
      isURL input = true ->
      analyzeAPI input = inr (APIAnalyzer.analyzeAPIFromURL input))
  /\ (analyzeAPI input = inl APIAnalyzer.unable_to_analyze
      <-> APIAnalyzer.detectPopularAPI input = None
          /\ JS.truthy (isOpenAPISpec input) = false
          /\ isURL input = false)
  /\ (JSON_parse input = None -> JS.truthy (isOpenAPISpec input) = false)
  /\ analyzeAPI input <> inl SyntaxError.
Proof.
  unfold analyzeAPI, APIAnalyzer.analyzeAPI.
  fold isOpenAPISpec parseOpenAPISpec isURL.
  split; [|split; [|split; [|split; [|split]]]].
  - intros api ->. reflexivity.
  - intros -> ->. reflexivity.
  - intros -> -> ->. reflexivity.
  - destruct (APIAnalyzer.detectPopularAPI input) as [api|].
    { split; [discriminate | intros (Hd & _); discriminate Hd]. }
    destruct (JS.truthy (isOpenAPISpec input)) eqn:Ho.
    { split.
      - intros Hf. apply (rot_parseOpenAPISpec _ Ho) in Hf. discriminate Hf.
      - intros (_ & Hf & _); discriminate Hf. }
    destruct (isURL input).
    { split; [discriminate | intros (_ & _ & Hf); discriminate Hf]. }
    split; [now intros _ | reflexivity].
  - unfold isOpenAPISpec, APIAnalyzer.isOpenAPISpec. intros ->. reflexivity.
  - destruct (APIAnalyzer.detectPopularAPI input); [discriminate|].
    destruct (JS.truthy (isOpenAPISpec input)) eqn:Ho.
    + intros Hf. apply (rot_parseOpenAPISpec _ Ho) in Hf. discriminate Hf.
    + destruct (isURL input); discriminate.
Qed.

(** C2, as amended. An input whose lower-cased form contains a signature
    of a vendor, and no signature of a vendor checked before it, yields
    that vendor's catalog record, whatever else it contains. *)
Theorem vendor_signature_yields_record (v : Spec.Vendor) (input : string) :
  Spec.mentions input v = true ->
  (forall w, Spec.rank w < Spec.rank v -> Spec.mentions input w = false) ->
  analyzeAPI input = inr (Spec.record v).
Proof.
  intros Hv Hw. unfold analyzeAPI, APIAnalyzer.analyzeAPI.
  rewrite detectPopularAPI_first_mentioned.
  unfold Spec.check_order. cbn [find].
  destruct v; cbn [Spec.rank] in Hw.
  - now rewrite Hv.
  - rewrite (Hw Spec.Stripe) by (cbn; lia). now rewrite Hv.
  - rewrite (Hw Spec.Stripe), (Hw Spec.Shopify) by (cbn; lia). now rewrite Hv.
Qed.

(** C10. When the lower-cased input contains signatures of more than one
    vendor, the record returned is the one of the vendor checked first
    among those it mentions: Stripe before Shopify before Slack. *)
Theorem vendor_precedence (input : string) (v w : Spec.Vendor) :
  v <> w ->
  Spec.mentions input v = true ->
  Spec.mentions input w = true ->
  exists first,
    Spec.mentions input first = true
    /\ (forall u, Spec.mentions input u = true -> Spec.rank first <= Spec.rank u)
    /\ analyzeAPI input = inr (Spec.record first).
Proof.
  intros _ Hv _.
  unfold analyzeAPI, APIAnalyzer.analyzeAPI.
  rewrite detectPopularAPI_first_mentioned.
  unfold Spec.check_order. cbn [find].
  destruct (Spec.mentions input Spec.Stripe) eqn:H1.
  { exists Spec.Stripe. repeat split; trivial. intros u _. cbn. lia. }
  destruct (Spec.mentions input Spec.Shopify) eqn:H2.
  { exists Spec.Shopify. repeat split; trivial.
    intros [] Hu; cbn; try lia. congruence. }
  destruct (Spec.mentions input Spec.Slack) eqn:H3.
  { exists Spec.Slack. repeat split; trivial.
    intros [] Hu; cbn; try lia; congruence. }
  destruct v; congruence.
Qed.

(** C8. An input that contains no vendor signature, is not classified as
    an OpenAPI document and parses as a URL yields the placeholder: name
    "Custom API", the input as base URL, one GET endpoint at "/" without
    parameters and with one response of status 200, authentication by API
    key without a location, and the single capability "General API
    operations". A text that [JSON.parse] rejects is such an input as soon
    as it names no vendor and parses as a URL. *)
Theorem bare_url_yields_placeholder (input : string) :
  APIAnalyzer.detectPopularAPI input = None ->
  JS.truthy (isOpenAPISpec input) = false \/ JSON_parse input = None ->
  isURL input = true ->
  exists api endpoint response,
    analyzeAPI input = inr api
    /\ ParsedAPI.name api = str "Custom API"
    /\ ParsedAPI.baseUrl api = str input
    /\ ParsedAPI.endpoints api = [endpoint]
    /\ APIEndpoint.path endpoint = "/"
    /\ APIEndpoint.method endpoint = GET
    /\ APIEndpoint.parameters endpoint = []
    /\ APIEndpoint.responses endpoint = [response]
    /\ APIResponse.statusCode response = Int 200
    /\ Authentication.type (ParsedAPI.authentication api) = apiKey
    /\ Authentication.location (ParsedAPI.authentication api) = undefined
    /\ ParsedAPI.capabilities api = ["General API operations"].
Proof.
  intros Hd Ho Hu.
  assert (Ho' : JS.truthy (isOpenAPISpec input) = false).
  { destruct Ho as [Ho|Hp]; [exact Ho|].
    unfold isOpenAPISpec, APIAnalyzer.isOpenAPISpec. now rewrite Hp. }
  eexists _, _, _. split.
  - unfold analyzeAPI, APIAnalyzer.analyzeAPI.
    fold isOpenAPISpec isURL. rewrite Hd, Ho', Hu. reflexivity.
  - cbn. repeat split; reflexivity.
Qed.

End Classification.

(** The claim C2 as it is worded fails: this input contains the signature
    "slack", and the record returned is not Slack's, because "stripe" is
    looked for first. *)
Lemma vendor_signature_alone_insufficient :
  Spec.mentions "Post Stripe receipts to Slack" Spec.Slack = true
  /\ forall JSON_parse URL_parses,
       APIAnalyzer.analyzeAPI JSON_parse URL_parses "Post Stripe receipts to Slack"
       <> inr (Spec.record Spec.Slack).
Proof.
  split; [reflexivity|].
  intros p u. unfold APIAnalyzer.analyzeAPI.
  change (APIAnalyzer.detectPopularAPI "Post Stripe receipts to Slack")
    with (Some POPULAR_APIS.stripe).
  discriminate.
Qed.

Lemma analyzeAPI_classification_witness :
  APIAnalyzer.analyzeAPI Sample.JSON_parse Sample.URL_parses "my internal service"
  = inl APIAnalyzer.unable_to_analyze.
Proof.
  apply (proj1 (proj2 (proj2 (proj2
    (analyzeAPI_classification Sample.JSON_parse Sample.URL_parses "my internal service"))))).
  repeat split; reflexivity.
Defined.

Lemma vendor_signature_yields_record_witness :
  APIAnalyzer.analyzeAPI Sample.JSON_parse Sample.URL_parses
    "https://acme.myshopify.com/admin" = inr POPULAR_APIS.shopify.
Proof.
  apply (vendor_signature_yields_record Sample.JSON_parse Sample.URL_parses
           Spec.Shopify "https://acme.myshopify.com/admin").
  - reflexivity.
  - intros [] H; cbn in H; try lia. reflexivity.
Defined.

Lemma vendor_precedence_witness :
  exists first,
    Spec.mentions "slack alerts for stripe" first = true
    /\ (forall u, Spec.mentions "slack alerts for stripe" u = true ->
                  Spec.rank first <= Spec.rank u)
    /\ APIAnalyzer.analyzeAPI Sample.JSON_parse Sample.URL_parses
         "slack alerts for stripe" = inr (Spec.record first).
Proof.
  apply (@vendor_precedence Sample.JSON_parse Sample.URL_parses
           "slack alerts for stripe" Spec.Slack Spec.Stripe).
  - discriminate.
  - reflexivity.
  - reflexivity.
Defined.

Lemma bare_url_yields_placeholder_witness :
  exists api endpoint response,
    APIAnalyzer.analyzeAPI Sample.JSON_parse Sample.URL_parses "http://x" = inr api
    /\ ParsedAPI.name api = str "Custom API"
    /\ ParsedAPI.baseUrl api = str "http://x"
    /\ ParsedAPI.endpoints api = [endpoint]
    /\ APIEndpoint.path endpoint = "/"
    /\ APIEndpoint.method endpoint = GET
    /\ APIEndpoint.parameters endpoint = []
    /\ APIEndpoint.responses endpoint = [response]
    /\ APIResponse.statusCode response = Int 200
    /\ Authentication.type (ParsedAPI.authentication api) = apiKey
    /\ Authentication.location (ParsedAPI.authentication api) = undefined
    /\ ParsedAPI.capabilities api = ["General API operations"].
Proof.
  apply (bare_url_yields_placeholder Sample.JSON_parse Sample.URL_parses "http://x").
  - reflexivity.
  - right. reflexivity.
  - reflexivity.
Defined.

(** ** Lists without repetition *)

Section FirstOccurrences.

Variable A : Type.
Variable eqb : A -> A -> bool.
Hypothesis eqb_eq : forall x y, eqb x y = true <-> x = y.

Lemma eqb_refl' (x : A) : eqb x x = true.
Proof. now apply eqb_eq. Qed.

Lemma existsb_eqb (x : A) (l : list A) : existsb (eqb x) l = true <-> In x l.
Proof.
  rewrite existsb_exists. split.
  - intros (y & Hy & He). apply eqb_eq in He. now subst.
  - intros H. exists x. split; [exact H | apply eqb_refl'].
Qed.

Lemma filter_filter_comm (p q : A -> bool) (l : list A) :
  filter p (filter q l) = filter q (filter p l).
Proof.
  induction l as [|x r IH]; simpl; [reflexivity|].
  destruct (q x) eqn:Hq, (p x) eqn:Hp; simpl; rewrite ?Hq, ?Hp, IH; reflexivity.
Qed.

Lemma filter_drop (p : A -> bool) (x : A) (l : list A) :
  p x = false ->
  filter p (filter (fun y => negb (eqb x y)) l) = filter p l.
Proof.
  intros Hx. induction l as [|y r IH]; simpl; [reflexivity|].
  destruct (eqb x y) eqn:He; simpl.
  - apply eqb_eq in He. subst y. now rewrite Hx.
  - now rewrite IH.
Qed.

Lemma first_occurrences_filter (p : A -> bool) (l : list A) :
  Spec.first_occurrences eqb (filter p l) = filter p (Spec.first_occurrences eqb l).
Proof.
  induction l as [|x r IH]; simpl; [reflexivity|].
  destruct (p x) eqn:Hp; simpl.
  - now rewrite IH, filter_filter_comm.
  - now rewrite IH, filter_drop.
Qed.

Lemma first_occurrences_In (x : A) (l : list A) :
  In x (Spec.first_occurrences eqb l) <-> In x l.
Proof.
  induction l as [|y r IH]; simpl; [tauto|].
  rewrite filter_In, IH. split.
  - intros [H|[H _]]; auto.
  - intros [H|H]; auto.
    destruct (eqb y x) eqn:He.
    + left. now apply eqb_eq.
    + right. split; [exact H | reflexivity].
Qed.

Lemma first_occurrences_NoDup (l : list A) : NoDup (Spec.first_occurrences eqb l).
Proof.
  induction l as [|x r IH]; simpl; constructor.
  - rewrite filter_In. intros [_ H]. now rewrite eqb_refl' in H.
  - now apply NoDup_filter.
Qed.

End FirstOccurrences.

Lemma Method_eqb_eq (a b : Method) : Method_eqb a b = true <-> a = b.
Proof. destruct a, b; simpl; split; intros H; try reflexivity; discriminate H. Qed.

(** ** Capabilities ([generateCapabilities]) *)


Lemma adds_app (caps xs ys : list string) :
  Spec.adds caps (xs ++ ys) = Spec.adds (Spec.adds caps xs) ys.
Proof. unfold Spec.adds. apply fold_left_app. Qed.

Lemma adds_first_occurrences (xs caps : list string) :
  Spec.adds caps xs
  = caps ++ Spec.first_occurrences String.eqb
              (filter (fun x => negb (existsb (String.eqb x) caps)) xs).
Proof.
  revert caps. induction xs as [|x r IH]; intros caps.
  - simpl. now rewrite app_nil_r.
  - change (Spec.adds caps (x :: r)) with (Spec.adds (APIAnalyzer.Set_add x caps) r).
    rewrite IH. unfold APIAnalyzer.Set_add. simpl.
    destruct (existsb (String.eqb x) caps) eqn:Hx; simpl; [reflexivity|].
    rewrite <- app_assoc. simpl. do 2 f_equal.
    rewrite <- (first_occurrences_filter String.eqb String.eqb_eq).
    rewrite filter_filter_comm. f_equal.
    clear. induction r as [|y r IH]; simpl; [reflexivity|].
    rewrite existsb_app. simpl. rewrite orb_false_r.
    rewrite (String.eqb_sym y x).
    destruct (existsb (String.eqb y) caps) eqn:Hy, (String.eqb x y) eqn:Hxy;
      simpl; rewrite ?Hy; simpl; rewrite IH; reflexivity.
Qed.

Lemma add_tags_adds (caps : list string) (tags : list JSON) :
  APIAnalyzer.add_tags caps tags
  = Spec.adds caps (map (fun tag => "Manage " +++ JS.ToString tag) tags).
Proof.
  unfold APIAnalyzer.add_tags, Spec.adds. revert caps.
  induction tags as [|t r IH]; intros caps; simpl; [reflexivity | apply IH].
Qed.

Lemma add_method_adds (caps : list string) (m : Method) :
  APIAnalyzer.add_method caps m = Spec.adds caps [Spec.method_capability m].
Proof. destruct m; reflexivity. Qed.

Lemma add_endpoints_adds (endpoints : list APIEndpoint.t) (caps : list string) :
  forallb Spec.tagged endpoints = true ->
  APIAnalyzer.add_endpoints caps endpoints = inr (Spec.adds caps (Spec.labels endpoints)).
Proof.
  revert caps. induction endpoints as [|e r IH]; intros caps; simpl.
  - reflexivity.
  - intros H. apply andb_prop in H as [He Hr].
    unfold Spec.labels in *. simpl. rewrite adds_app, <- (IH _ Hr).
    unfold APIAnalyzer.add_endpoint, Spec.endpoint_labels, Spec.tag_list.
    unfold Spec.tagged, JS.isArray in He.
    destruct (APIEndpoint.tags e) as [[| | | | tags |]|]; try discriminate He.
    simpl. now rewrite adds_app, add_tags_adds, add_method_adds.
Qed.

(** C7. For endpoints whose tags are arrays, the capabilities are the
    labels "Manage tag" of every tag of every endpoint and, per endpoint,
    the one label of its method, each kept once, in the order of first
    occurrence. *)
Theorem generateCapabilities_labels (endpoints : list APIEndpoint.t) :
  forallb Spec.tagged endpoints = true ->
  exists capabilities,
    APIAnalyzer.generateCapabilities endpoints = inr capabilities
    /\ capabilities = Spec.first_occurrences String.eqb (Spec.labels endpoints)
    /\ NoDup capabilities
    /\ (forall c, In c capabilities <->
          exists e, In e endpoints
            /\ (c = Spec.method_capability (APIEndpoint.method e)
                \/ exists tag, In tag (Spec.tag_list e)
                               /\ c = "Manage " +++ JS.ToString tag)).
Proof.
  intros H. eexists. split; [|split; [reflexivity|split]].
  - unfold APIAnalyzer.generateCapabilities.
    rewrite (add_endpoints_adds _ _ H), adds_first_occurrences. simpl.
    f_equal. f_equal. clear. induction (Spec.labels endpoints); simpl; congruence.
  - apply first_occurrences_NoDup. apply String.eqb_eq.
  - intros c. rewrite (first_occurrences_In String.eqb String.eqb_eq).
    unfold Spec.labels. rewrite in_flat_map.
    split; intros (e & He & Hc); exists e; (split; [exact He|]).
    + unfold Spec.endpoint_labels in Hc. apply in_app_or in Hc as [Hc|[Hc|[]]].
      * right. apply in_map_iff in Hc as (tag & Ht & Hin). now exists tag.
      * now left.
    + unfold Spec.endpoint_labels. apply in_or_app.
      destruct Hc as [->|(tag & Hin & ->)].
      * right. now left.
      * left. apply in_map_iff. now exists tag.
Qed.

Lemma generateCapabilities_labels_witness :
  exists capabilities,
    APIAnalyzer.generateCapabilities [Sample.endpoint_with GET; Sample.endpoint_with POST]
    = inr capabilities
    /\ capabilities = ["Manage orders"; "Retrieve data"; "Create resources"]
    /\ NoDup capabilities.
Proof.
  destruct (generateCapabilities_labels [Sample.endpoint_with GET; Sample.endpoint_with POST])
    as (caps & Hc & He & Hn & _); [reflexivity|].
  exists caps. split; [exact Hc|]. split; [exact He | exact Hn].
Defined.

(** ** The summary sentence ([generateNaturalLanguageDescription]) *)

Lemma append_assoc (a b c : string) : (a +++ b) +++ c = a +++ b +++ c.
Proof. induction a as [|x a IH]; simpl; [reflexivity | now rewrite IH]. Qed.

Lemma includes_skip (a s sub : string) :
  JSString.includes s sub = true -> JSString.includes (a +++ s) sub = true.
Proof.
  intros H. apply includes_inv in H as (p & q & ->).
  rewrite <- append_assoc. apply includes_append.
Qed.

Lemma count_method_map (m : Method) (f : Method -> nat) (ks : list Method) :
  NoDup ks ->
  APIAnalyzer.count_method m (map (fun k => (k, f k)) ks)
  = if existsb (Method_eqb m) ks
    then map (fun k => (k, if Method_eqb m k then f k + 1 else f k)) ks
    else map (fun k => (k, f k)) ks ++ [(m, 1)].
Proof.
  induction ks as [|x ks IH]; intros Hnd; simpl; [reflexivity|].
  inversion Hnd as [|? ? Hx Hks]; subst.
  destruct (Method_eqb m x) eqn:Hmx; simpl.
  - apply Method_eqb_eq in Hmx. subst x. f_equal.
    apply map_ext_in. intros k Hk.
    destruct (Method_eqb m k) eqn:Hmk; [|reflexivity].
    apply Method_eqb_eq in Hmk. now subst k.
  - rewrite (IH Hks). now destruct (existsb (Method_eqb m) ks).
Qed.

Lemma first_occurrences_snoc (l : list Method) (m : Method) :
  Spec.first_occurrences Method_eqb (l ++ [m])
  = if existsb (Method_eqb m) l
    then Spec.first_occurrences Method_eqb l
    else Spec.first_occurrences Method_eqb l ++ [m].
Proof.
  induction l as [|x l IH]; simpl; [reflexivity|].
  rewrite IH.
  destruct (Method_eqb m x) eqn:Hmx; simpl.
  - apply Method_eqb_eq in Hmx. subst x.
    destruct (existsb (Method_eqb m) l); [reflexivity|].
    rewrite filter_app. simpl.
    replace (Method_eqb m m) with true by now destruct m.
    simpl. now rewrite app_nil_r.
  - destruct (existsb (Method_eqb m) l); [reflexivity|].
    rewrite filter_app. simpl.
    replace (Method_eqb x m) with false by now destruct x, m.
    reflexivity.
Qed.

Lemma uses_snoc (k : Method) (endpoints : list APIEndpoint.t) (e : APIEndpoint.t) :
  Spec.uses k (endpoints ++ [e])
  = Spec.uses k endpoints + (if Method_eqb k (APIEndpoint.method e) then 1 else 0).
Proof.
  unfold Spec.uses. rewrite filter_app, length_app. simpl.
  now destruct (Method_eqb k (APIEndpoint.method e)).
Qed.

Lemma uses_unused (k : Method) (endpoints : list APIEndpoint.t) :
  existsb (Method_eqb k) (map APIEndpoint.method endpoints) = false ->
  Spec.uses k endpoints = 0.
Proof.
  unfold Spec.uses. induction endpoints as [|e r IH]; simpl; [reflexivity|].
  destruct (Method_eqb k (APIEndpoint.method e)); simpl; [discriminate | exact IH].
Qed.

Lemma uses_used (k : Method) (endpoints : list APIEndpoint.t) :
  In k (map APIEndpoint.method endpoints) -> 1 <= Spec.uses k endpoints.
Proof.
  unfold Spec.uses. induction endpoints as [|e r IH]; simpl; [tauto|].
  intros [<-|H].
  - replace (Method_eqb (APIEndpoint.method e) (APIEndpoint.method e)) with true
      by now destruct (APIEndpoint.method e).
    simpl. lia.
  - specialize (IH H). destruct (Method_eqb k (APIEndpoint.method e)); simpl; lia.
Qed.

Lemma breakdown_snoc (endpoints : list APIEndpoint.t) (e : APIEndpoint.t) :
  Spec.breakdown (endpoints ++ [e])
  = APIAnalyzer.count_method (APIEndpoint.method e) (Spec.breakdown endpoints).
Proof.
  unfold Spec.breakdown.
  rewrite count_method_map by (apply first_occurrences_NoDup, Method_eqb_eq).
  rewrite map_app. simpl. rewrite first_occurrences_snoc.
  set (m := APIEndpoint.method e). set (ms := map APIEndpoint.method endpoints).
  assert (Hex : existsb (Method_eqb m) (Spec.first_occurrences Method_eqb ms)
                = existsb (Method_eqb m) ms).
  { apply eq_true_iff_eq.
    rewrite !(existsb_eqb Method_eqb Method_eqb_eq).
    apply (first_occurrences_In Method_eqb Method_eqb_eq). }
  rewrite Hex. destruct (existsb (Method_eqb m) ms) eqn:Hm.
  - apply map_ext. intros k. rewrite uses_snoc. fold m.
    replace (Method_eqb k m) with (Method_eqb m k) by now destruct m, k.
    now destruct (Method_eqb m k); rewrite ?Nat.add_0_r.
  - rewrite map_app. simpl. f_equal.
    + apply map_ext_in. intros k Hk. rewrite uses_snoc. fold m.
      destruct (Method_eqb k m) eqn:Hkm; [|now rewrite Nat.add_0_r].
      apply Method_eqb_eq in Hkm. subst k.
      apply (proj1 (first_occurrences_In Method_eqb Method_eqb_eq _ _)) in Hk.
      apply (proj2 (existsb_eqb Method_eqb Method_eqb_eq _ _)) in Hk.
      unfold ms, m in *. congruence.
    + rewrite uses_snoc. fold m. rewrite (uses_unused _ _ Hm).
      now replace (Method_eqb m m) with true by now destruct m.
Qed.

Lemma method_counts_breakdown (endpoints : list APIEndpoint.t) :
  APIAnalyzer.method_counts endpoints = Spec.breakdown endpoints.
Proof.
  induction endpoints as [|e r IH] using rev_ind; [reflexivity|].
  unfold APIAnalyzer.method_counts in *.
  now rewrite fold_left_app, IH, breakdown_snoc.
Qed.

Lemma method_phrase_phrase (m : Method) (count : nat) :
  1 <= count -> APIAnalyzer.method_phrase (m, count) = Spec.phrase (m, count).
Proof.
  intros H. unfold APIAnalyzer.method_phrase, Spec.phrase. simpl fst; simpl snd.
  destruct count as [|[|n]]; [lia | reflexivity |].
  simpl Nat.ltb; simpl Nat.eqb. cbv iota. now destruct m.
Qed.

Lemma breakdown_phrases (endpoints : list APIEndpoint.t) :
  map APIAnalyzer.method_phrase (Spec.breakdown endpoints)
  = map Spec.phrase (Spec.breakdown endpoints).
Proof.
  apply map_ext_in. intros [m c] H. apply method_phrase_phrase.
  unfold Spec.breakdown in H. apply in_map_iff in H as (k & Hk & Hin).
  injection Hk as -> <-.
  apply uses_used.
  exact (proj1 (first_occurrences_In Method_eqb Method_eqb_eq _ _) Hin).
Qed.

(** C9, as amended. The description is the summary sentence of the design
    document: name, description, number and list of capabilities, number of
    endpoints, and the breakdown by method in the order of first use, each
    entry in the singular when its count is one and in the plural
    otherwise. For three endpoints, two of them GET and one POST, the first
    being a GET, it contains "2 GET endpoints, 1 POST endpoint". *)
Theorem description_is_summary (api : ParsedAPI.t) :
  APIAnalyzer.generateNaturalLanguageDescription api
  = Spec.summary api (Spec.breakdown (ParsedAPI.endpoints api))
  /\ (length (ParsedAPI.endpoints api) = 3 ->
      Spec.uses GET (ParsedAPI.endpoints api) = 2 ->
      Spec.uses POST (ParsedAPI.endpoints api) = 1 ->
      hd_error (map APIEndpoint.method (ParsedAPI.endpoints api)) = Some GET ->
      JSString.includes (APIAnalyzer.generateNaturalLanguageDescription api)
                        "2 GET endpoints, 1 POST endpoint" = true).
Proof.
  assert (Hs : APIAnalyzer.generateNaturalLanguageDescription api
               = Spec.summary api (Spec.breakdown (ParsedAPI.endpoints api))).
  { unfold APIAnalyzer.generateNaturalLanguageDescription, Spec.summary.
    rewrite method_counts_breakdown, breakdown_phrases.
    rewrite !append_assoc. reflexivity. }
  split; [exact Hs|].
  intros Hl Hg Hp Hh. rewrite Hs. unfold Spec.summary.
  assert (Hb : Spec.breakdown (ParsedAPI.endpoints api) = [(GET, 2); (POST, 1)]).
  { destruct (ParsedAPI.endpoints api) as [|e1 [|e2 [|e3 [|e4 r]]]]; try discriminate Hl.
    unfold Spec.breakdown, Spec.uses in *. simpl in *.
    destruct (APIEndpoint.method e1), (APIEndpoint.method e2), (APIEndpoint.method e3);
      simpl in *; try discriminate; reflexivity. }
  rewrite Hb.
  do 9 apply includes_skip.
  apply (includes_here "2 GET endpoints, 1 POST endpoint" ".").
Qed.

(** ** The OpenAPI transform ([parseOpenAPISpec]) *)

Lemma bind_inr {A B} (c : throws A) (k : A -> throws B) (b : B) :
  bind c k = inr b -> exists a, c = inr a /\ k a = inr b.
Proof. destruct c as [e|a]; simpl; [discriminate | intros H; now exists a]. Qed.

Lemma forEach_inr {A B} (f : A -> throws B) (xs : list A) (ys : list B) :
  forEach f xs = inr ys <-> Forall2 (fun x y => f x = inr y) xs ys.
Proof.
  revert ys. induction xs as [|x r IH]; intros ys; simpl.
  - split.
    + intros H. injection H as <-. constructor.
    + intros H. now inversion H.
  - split.
    + intros H. apply bind_inr in H as (y & Hy & H).
      apply bind_inr in H as (ys' & Hys & H). injection H as <-.
      constructor; [exact Hy | now apply IH].
    + intros H. inversion H as [|? y ? ys' Hy Hys]; subst.
      rewrite Hy. simpl. apply IH in Hys. now rewrite Hys.
Qed.

Lemma get_get_opt (v : JSVal) (k : string) (w : JSVal) :
  JS.get v k = inr w -> JS.get_opt v k = w.
Proof.
  destruct v as [[| | | | |]|]; simpl; try discriminate;
    intros H; rewrite ?H; try (now injection H); reflexivity.
Qed.

Lemma get_defined (j : JSON) (k : string) :
  j <> JNull -> JS.get (Some j) k = inr (JS.get_opt (Some j) k).
Proof.
  intros H. destruct j; simpl; try congruence; try destruct (JS.array_index k); reflexivity.
Qed.

Lemma get_truthy (v : JSVal) (k : string) :
  JS.truthy v = true -> JS.get v k = inr (JS.get_opt v k).
Proof.
  destruct v as [j|]; [|discriminate]. intros H. apply get_defined.
  intros ->. discriminate H.
Qed.

Lemma get_inr_defined (v : JSVal) (k : string) (w : JSVal) :
  JS.get v k = inr w -> exists j, v = Some j /\ j <> JNull.
Proof.
  destruct v as [j|]; [|discriminate]. intros H. exists j. split; [reflexivity|].
  intros ->. discriminate H.
Qed.

Lemma entries_members (v : JSVal) :
  JS.Object_entries (JS.or v (obj [])) = inr (Spec.members v).
Proof. destruct v as [[|[]|n|s| |]|]; try reflexivity.
  - unfold JS.or, Spec.members. simpl. destruct (Z.eqb n 0); reflexivity.
  - unfold JS.or, Spec.members. simpl. destruct (String.eqb s EmptyString) eqn:E; [|reflexivity].
    apply String.eqb_eq in E. now subst.
Qed.

Lemma entries_inr_members (v : JSVal) (es : list (string * JSON)) :
  JS.Object_entries v = inr es -> es = Spec.members v.
Proof. unfold Spec.members. now intros ->. Qed.

Lemma http_method_verb (key : string) :
  match APIAnalyzer.http_method key with
  | Some m => Spec.is_http_verb key = true
              /\ Method_to_string m = JSString.toUpperCase key
  | None => Spec.is_http_verb key = false
  end.
Proof.
  unfold APIAnalyzer.http_method, Spec.is_http_verb. simpl.
  repeat match goal with
         | |- context [String.eqb key ?s] =>
             let E := fresh "E" in
             destruct (String.eqb key s) eqn:E;
             [apply String.eqb_eq in E; subst key; split; reflexivity|]
         end.
  reflexivity.
Qed.

Lemma operation_keys (path : string) (entry : string * JSON) (added : list APIEndpoint.t) :
  APIAnalyzer.operation path entry = inr added ->
  map Spec.endpoint_key added
  = map Spec.recorded (filter (fun pair => Spec.is_http_verb (snd pair)) [(path, fst entry)]).
Proof.
  destruct entry as [key op]. unfold APIAnalyzer.operation. cbn [fst snd filter].
  pose proof (http_method_verb key) as Hk.
  destruct (APIAnalyzer.http_method key) as [m|].
  - destruct Hk as [-> Hm]. intros H.
    repeat (apply bind_inr in H as (? & _ & H)).
    injection H as <-. unfold Spec.endpoint_key, Spec.recorded. simpl. now rewrite Hm.
  - rewrite Hk. intros H. now injection H as <-.
Qed.

Lemma forEach_concat_keys {A} (f : A -> throws (list APIEndpoint.t))
      (g : A -> list (string * string)) (xs : list A) (added : list (list APIEndpoint.t)) :
  (forall x l, f x = inr l -> map Spec.endpoint_key l = g x) ->
  forEach f xs = inr added ->
  map Spec.endpoint_key (concat added) = flat_map g xs.
Proof.
  intros Hf H. apply forEach_inr in H.
  induction H as [|x l xs ls Hx _ IH]; simpl; [reflexivity|].
  now rewrite map_app, IH, (Hf _ _ Hx).
Qed.

Lemma filter_flat_map {A B} (p : B -> bool) (g : A -> list B) (xs : list A) :
  filter p (flat_map g xs) = flat_map (fun x => filter p (g x)) xs.
Proof.
  induction xs as [|x r IH]; simpl; [reflexivity|]. now rewrite filter_app, IH.
Qed.

Lemma map_flat_map {A B C} (h : B -> C) (g : A -> list B) (xs : list A) :
  map h (flat_map g xs) = flat_map (fun x => map h (g x)) xs.
Proof.
  induction xs as [|x r IH]; simpl; [reflexivity|]. now rewrite map_app, IH.
Qed.

Lemma path_item_keys (entry : string * JSON) (added : list APIEndpoint.t) :
  APIAnalyzer.path_item entry = inr added ->
  map Spec.endpoint_key added
  = map Spec.recorded
      (filter (fun pair => Spec.is_http_verb (snd pair))
              (map (fun op => (fst entry, fst op)) (Spec.members (Some (snd entry))))).
Proof.
  destruct entry as [path item]. unfold APIAnalyzer.path_item. cbn [fst snd]. intros H.
  apply bind_inr in H as (ops & Hops & H).
  apply bind_inr in H as (ls & Hls & H). injection H as <-.
  apply entries_inr_members in Hops. subst ops.
  rewrite (@forEach_concat_keys _ _ _ _ _ (fun op l Hl => @operation_keys path op l Hl) Hls).
  clear Hls. induction (Spec.members (Some item)) as [|op r IH]; [reflexivity|].
  change (flat_map ?g (op :: r)) with (g op ++ flat_map g r).
  rewrite IH. simpl. now destruct (Spec.is_http_verb (fst op)).
Qed.

Lemma parse_paths_keys (parsed : JSON) (endpoints : list APIEndpoint.t) :
  APIAnalyzer.parse_paths parsed = inr endpoints ->
  map Spec.endpoint_key endpoints
  = map Spec.recorded (filter (fun pair => Spec.is_http_verb (snd pair))
                         (Spec.path_method_pairs parsed)).
Proof.
  unfold APIAnalyzer.parse_paths. intros H.
  apply bind_inr in H as (paths & Hp & H).
  apply bind_inr in H as (items & Hi & H).
  apply bind_inr in H as (ls & Hls & H). injection H as <-.
  rewrite entries_members in Hi. injection Hi as <-.
  apply get_get_opt in Hp.
  rewrite (@forEach_concat_keys _ _ _ _ _ path_item_keys Hls).
  unfold Spec.path_method_pairs. rewrite Hp.
  now rewrite filter_flat_map, map_flat_map.
Qed.

Lemma parseOpenAPIDocument_endpoints (parsed : JSON) (api : ParsedAPI.t) :
  APIAnalyzer.parseOpenAPIDocument parsed = inr api ->
  APIAnalyzer.parse_paths parsed = inr (ParsedAPI.endpoints api).
Proof.
  unfold APIAnalyzer.parseOpenAPIDocument. intros H.
  apply bind_inr in H as (endpoints & He & H).
  repeat (apply bind_inr in H as (? & _ & H)).
  injection H as <-. exact He.
Qed.

(** C3. When the OpenAPI transform produces a description, its endpoints
    are, in order, the (path, method) pairs of the document's [paths]
    mapping whose method is one of get, post, put, delete and patch, with
    the method in upper case; so there are as many endpoints as such pairs,
    and a member under any other key adds none. *)
Theorem endpoints_are_the_http_pairs (parsed : JSON) (api : ParsedAPI.t) :
  APIAnalyzer.parseOpenAPIDocument parsed = inr api ->
  length (ParsedAPI.endpoints api)
  = length (filter (fun pair => Spec.is_http_verb (snd pair))
                   (Spec.path_method_pairs parsed))
  /\ map Spec.endpoint_key (ParsedAPI.endpoints api)
     = map Spec.recorded (filter (fun pair => Spec.is_http_verb (snd pair))
                            (Spec.path_method_pairs parsed))
  /\ (forall path key operation,
        Spec.is_http_verb key = false ->
        APIAnalyzer.operation path (key, operation) = inr []).
Proof.
  intros H. apply parseOpenAPIDocument_endpoints, parse_paths_keys in H.
  split; [|split].
  - rewrite <- (length_map Spec.endpoint_key), H. apply length_map.
  - exact H.
  - intros path key op Hk. unfold APIAnalyzer.operation.
    pose proof (http_method_verb key) as Hm.
    destruct (APIAnalyzer.http_method key); [|reflexivity].
    destruct Hm as [Hm _]. congruence.
Qed.

(** *** Request body and responses *)

Lemma includes_name_In (names : list JSON) (name : string) :
  APIAnalyzer.includes_name names name = true <-> In (JStr name) names.
Proof.
  unfold APIAnalyzer.includes_name. rewrite existsb_exists. split.
  - intros (x & Hx & He). destruct x; try discriminate.
    apply String.eqb_eq in He. now subst.
  - intros H. exists (JStr name). split; [exact H | apply String.eqb_refl].
Qed.

Lemma required_names_declared (schema : JSVal) :
  Spec.is_object schema = true ->
  (declares <- JS.has_property "required" schema ;;
   (if declares then JS.get schema "required" else ret undefined))
  = inr (JS.get_opt schema "required").
Proof.
  destruct schema as [[| | | | l | m]|]; try discriminate; intros _; simpl.
  - reflexivity.
  - now destruct (JS.lookup "required" (JS.properties m)).
Qed.

Lemma body_parameter_spec (schema : JSVal) (property : string * JSON) :
  snd property <> JNull ->
  exists p,
    APIAnalyzer.body_parameter (Spec.required_names schema) property = inr p
    /\ Spec.body_parameter_of schema property p.
Proof.
  destruct property as [name prop]. cbn [snd]. intros Hp.
  unfold APIAnalyzer.body_parameter.
  rewrite !(get_defined _ Hp). cbn [bind ret].
  eexists. split; [reflexivity|].
  unfold Spec.body_parameter_of. cbn [fst snd APIParameter.name APIParameter.location
    APIParameter.required APIParameter.type APIParameter.description APIParameter.example].
  repeat split.
  - destruct (APIAnalyzer.includes_name (Spec.required_names schema) name) eqn:Hn.
    + left. split; [reflexivity | now apply includes_name_In].
    + right. split; [reflexivity|]. intros H. apply includes_name_In in H. congruence.
  - now intros ->.
  - now intros ->.
Qed.

Lemma forEach_total {A B} (f : A -> throws B) (R : A -> B -> Prop) (xs : list A) :
  Forall (fun x => exists y, f x = inr y /\ R x y) xs ->
  exists ys, forEach f xs = inr ys /\ Forall2 R xs ys.
Proof.
  induction 1 as [|x r (y & Hy & HR) _ (ys & Hys & HF)]; simpl.
  - exists []. split; [reflexivity | constructor].
  - exists (y :: ys). rewrite Hy, Hys. split; [reflexivity | now constructor].
Qed.

Lemma schema_parameters_spec (schema : JSVal) :
  Spec.is_object schema = true ->
  Forall (fun property => snd property <> JNull)
         (Spec.members (JS.get_opt schema "properties")) ->
  exists added,
    APIAnalyzer.schema_parameters schema = inr added
    /\ Forall2 (Spec.body_parameter_of schema)
               (Spec.members (JS.get_opt schema "properties")) added.
Proof.
  intros Ho Hp. unfold APIAnalyzer.schema_parameters.
  pose proof (required_names_declared _ Ho) as Hr.
  destruct (JS.has_property "required" schema) as [e|declares]; [discriminate|].
  cbn [bind] in *. rewrite Hr. cbn [bind].
  assert (Ht : JS.truthy schema = true) by (destruct schema as [[| | | | |]|]; now try discriminate).
  rewrite (get_truthy _ _ Ht). cbn [bind]. rewrite entries_members. cbn [bind].
  apply forEach_total. revert Hp. apply Forall_impl. intros property Hn.
  exact (body_parameter_spec schema property Hn).
Qed.

Lemma body_parameters_schema (methodObj : JSON) :
  methodObj <> JNull ->
  JS.truthy (Spec.json_body_schema methodObj) = true ->
  APIAnalyzer.body_parameters methodObj
  = APIAnalyzer.schema_parameters (Spec.json_body_schema methodObj).
Proof.
  intros Hm Hs. unfold APIAnalyzer.body_parameters, Spec.json_body_schema in *.
  rewrite (get_defined _ Hm). cbn [bind].
  set (content := JS.get_opt (JS.get_opt (Some methodObj) "requestBody") "content") in *.
  destruct (JS.truthy content) eqn:Hc.
  - rewrite (get_truthy _ _ Hc). cbn [bind]. now rewrite Hs.
  - exfalso. destruct content as [[|[]|n|s| |]|]; try discriminate; simpl in Hs;
      discriminate.
Qed.

(** C4. An operation whose JSON request body has a schema (an object) with
    non-null properties gets one parameter per property of the schema, in
    the order of enumeration: located in the body, named after the
    property, required exactly when the schema's [required] list holds the
    name (never when there is no such list), with the type "string" and
    the empty description when the property declares none. They come after
    the declared parameters of the operation. The schema [{type: "object",
    properties: {a: {type: "integer"}}, required: ["a"]}] gives the single
    parameter "a", in the body, required. *)
Theorem body_schema_parameters :
  (forall methodObj : JSON,
     let schema := Spec.json_body_schema methodObj in
     methodObj <> JNull ->
     Spec.is_object schema = true ->
     Forall (fun property => snd property <> JNull)
            (Spec.members (JS.get_opt schema "properties")) ->
     exists added,
       APIAnalyzer.body_parameters methodObj = inr added
       /\ Forall2 (Spec.body_parameter_of schema)
                  (Spec.members (JS.get_opt schema "properties")) added
       /\ forall path key endpoint,
            APIAnalyzer.operation path (key, methodObj) = inr [endpoint] ->
            exists declared,
              APIAnalyzer.declared_parameters methodObj = inr declared
              /\ APIEndpoint.parameters endpoint = declared ++ added)
  /\ APIAnalyzer.body_parameters
       (JObj [("requestBody",
               JObj [("content",
                      JObj [("application/json",
                             JObj [("schema", Sample.body_schema)])])])])
     = inr [ {| APIParameter.name := str "a";
                APIParameter.type := str "integer";
                APIParameter.required := boolean true;
                APIParameter.description := str EmptyString;
                APIParameter.location := str "body";
                APIParameter.example := undefined |} ].
Proof.
  split; [|reflexivity].
  intros methodObj schema Hm Ho Hp.
  assert (Ht : JS.truthy schema = true)
    by (destruct schema as [[| | | | |]|]; now try discriminate).
  destruct (schema_parameters_spec schema Ho Hp) as (added & Ha & HF).
  exists added. split; [|split; [exact HF|]].
  - now rewrite (body_parameters_schema Hm Ht).
  - intros path key endpoint H. unfold APIAnalyzer.operation in H.
    destruct (APIAnalyzer.http_method key); [|discriminate H].
    apply bind_inr in H as (declared & Hd & H).
    apply bind_inr in H as (body & Hb & H).
    repeat (apply bind_inr in H as (? & _ & H)).
    injection H as <-. exists declared. split; [exact Hd|].
    rewrite (body_parameters_schema Hm Ht) in Hb. fold schema in Hb.
    rewrite Ha in Hb. now injection Hb as <-.
Qed.

Lemma declared_response_spec (declared : string * JSON) :
  snd declared <> JNull ->
  exists r, APIAnalyzer.declared_response declared = inr r /\ Spec.response_of declared r.
Proof.
  destruct declared as [code response]. cbn [snd]. intros Hr.
  unfold APIAnalyzer.declared_response.
  rewrite !(get_defined _ Hr). cbn [bind ret].
  eexists. split; [reflexivity|].
  unfold Spec.response_of. cbn. repeat split. now intros ->.
Qed.

(** C5. For an operation whose responses are not null, every member of its
    [responses] mapping becomes one response: its status code is
    [parseInt] of the member's key, its description the declared one or,
    when there is none, the empty string, and its example the one under
    [content["application/json"]]. These are the endpoint's responses. *)
Theorem responses_are_the_declared_codes (methodObj : JSON) :
  methodObj <> JNull ->
  Forall (fun declared => snd declared <> JNull)
         (Spec.members (JS.get_opt (Some methodObj) "responses")) ->
  exists responses,
    APIAnalyzer.declared_responses methodObj = inr responses
    /\ length responses
       = length (Spec.members (JS.get_opt (Some methodObj) "responses"))
    /\ Forall2 Spec.response_of
               (Spec.members (JS.get_opt (Some methodObj) "responses")) responses
    /\ forall path key endpoint,
         APIAnalyzer.operation path (key, methodObj) = inr [endpoint] ->
         APIEndpoint.responses endpoint = responses.
Proof.
  intros Hm Hr.
  assert (Hd : exists responses,
             APIAnalyzer.declared_responses methodObj = inr responses
             /\ Forall2 Spec.response_of
                  (Spec.members (JS.get_opt (Some methodObj) "responses")) responses).
  { unfold APIAnalyzer.declared_responses.
    rewrite (get_defined _ Hm). cbn [bind]. rewrite entries_members. cbn [bind].
    apply forEach_total. revert Hr. apply Forall_impl. intros declared Hn.
    exact (declared_response_spec declared Hn). }
  destruct Hd as (responses & Hd & HF). exists responses.
  split; [exact Hd|]. split; [symmetry; exact (Forall2_length HF)|].
  split; [exact HF|].
  intros path key endpoint H. unfold APIAnalyzer.operation in H.
  destruct (APIAnalyzer.http_method key); [|discriminate H].
  apply bind_inr in H as (? & _ & H).
  apply bind_inr in H as (? & _ & H).
  apply bind_inr in H as (rs & Hrs & H).
  repeat (apply bind_inr in H as (? & _ & H)).
  injection H as <-. rewrite Hd in Hrs. now injection Hrs as <-.
Qed.

(** ** Enumeration order of an object's members *)

Lemma define_fresh (k : string) (v : JSON) (o : list (string * JSON)) :
  ~ In k (map fst o) -> JS.define k v o = o ++ [(k, v)].
Proof.
  induction o as [|[k' v'] r IH]; simpl; [reflexivity|].
  intros H. destruct (String.eqb k k') eqn:E.
  - apply String.eqb_eq in E. subst. exfalso. apply H. now left.
  - rewrite IH; [reflexivity|]. intros Hin. apply H. now right.
Qed.

Lemma properties_distinct (members o : list (string * JSON)) :
  NoDup (map fst (o ++ members)) ->
  fold_left (fun o kv => JS.define (fst kv) (snd kv) o) members o = o ++ members.
Proof.
  revert o. induction members as [|[k v] r IH]; intros o H; simpl.
  - now rewrite app_nil_r.
  - rewrite define_fresh.
    + rewrite IH; rewrite <- app_assoc; [reflexivity | exact H].
    + rewrite map_app in H. simpl in H. apply NoDup_remove_2 in H.
      intros Hin. apply H. apply in_or_app. now left.
Qed.

(** When the keys of an object are distinct and none is an array index, its
    members are enumerated as the document declares them. *)
Lemma own_entries_declared (members : list (string * JSON)) :
  NoDup (map fst members) ->
  Forall (fun kv => JS.array_index (fst kv) = None) members ->
  JS.own_entries members = members.
Proof.
  intros Hnd Hix. unfold JS.own_entries, JS.properties.
  rewrite (properties_distinct members [] Hnd). simpl.
  assert (Hi : JS.indexed members = [] /\ JS.named members = members).
  { clear Hnd. induction Hix as [|kv r Hkv _ [IH1 IH2]]; [now split|].
    unfold JS.named in *. simpl. rewrite Hkv. split; [exact IH1 | now rewrite IH2]. }
  destruct Hi as [-> ->]. reflexivity.
Qed.

(** ** Authentication ([parseAuthentication]) *)

Lemma is_str_eq (v : JSVal) (s : string) :
  APIAnalyzer.is_str v s = true <-> v = str s.
Proof.
  unfold APIAnalyzer.is_str, str. destruct v as [[| | | s' | |]|]; split;
    try discriminate; intros H.
  - apply String.eqb_eq in H. now subst.
  - injection H as ->. apply String.eqb_refl.
Qed.

Lemma values_members (v : JSVal) :
  JS.truthy v = true -> JS.Object_values v = inr (map snd (Spec.members v)).
Proof.
  intros H. unfold JS.Object_values, Spec.members.
  destruct v as [[| | | | |]|]; try discriminate H; reflexivity.
Qed.

Lemma members_falsy (v : JSVal) : JS.truthy v = false -> Spec.members v = [].
Proof.
  destruct v as [[|[]|n|s| |]|]; try discriminate; try reflexivity; simpl; intros H.
  apply negb_false_iff in H. apply String.eqb_eq in H. now subst.
Qed.

(** C6, as amended. The authentication comes from the first security
    scheme in the order in which the run time enumerates the members of
    [components.securitySchemes]: names that are array indices first, in
    ascending order, then the other names as declared. An http scheme with
    scheme bearer gives bearer; an apiKey scheme gives apiKey with its [in]
    and [name]; any other scheme, and no scheme at all, gives apiKey with
    neither. When the names are distinct and none is an array index, that
    first scheme is the first one declared. *)
Theorem authentication_from_first_scheme (parsed : JSON) :
  parsed <> JNull ->
  let first := Spec.first_enumerated_scheme parsed in
  exists authentication,
    APIAnalyzer.parseAuthentication parsed = inr authentication
    /\ (JS.get_opt first "type" = str "http" ->
        JS.get_opt first "scheme" = str "bearer" ->
        authentication = Spec.bearer_authentication)
    /\ (JS.get_opt first "type" = str "apiKey" ->
        authentication
        = {| Authentication.type := apiKey;
             Authentication.location := JS.get_opt first "in";
             Authentication.name := JS.get_opt first "name" |})
    /\ (~ (JS.get_opt first "type" = str "http"
           /\ JS.get_opt first "scheme" = str "bearer") ->
        JS.get_opt first "type" <> str "apiKey" ->
        authentication = APIAnalyzer.default_authentication)
    /\ (forall declared,
          Spec.security_schemes parsed = Some (JObj declared) ->
          NoDup (map fst declared) ->
          Forall (fun kv => JS.array_index (fst kv) = None) declared ->
          first = Spec.first_declared_scheme parsed).
Proof.
  intros Hp first. unfold APIAnalyzer.parseAuthentication.
  rewrite (get_defined _ Hp). cbn [bind].
  fold (Spec.security_schemes parsed).
  assert (Hdecl : forall declared,
             Spec.security_schemes parsed = Some (JObj declared) ->
             NoDup (map fst declared) ->
             Forall (fun kv => JS.array_index (fst kv) = None) declared ->
             first = Spec.first_declared_scheme parsed).
  { intros declared Hs Hnd Hix. unfold first, Spec.first_enumerated_scheme,
      Spec.first_declared_scheme. rewrite Hs. unfold Spec.members. simpl.
    now rewrite own_entries_declared. }
  destruct (JS.truthy (Spec.security_schemes parsed)) eqn:Ht; cbn [negb].
  - rewrite (values_members _ Ht). cbn [bind].
    fold (Spec.first_enumerated_scheme parsed). fold first.
    destruct (APIAnalyzer.is_str (JS.get_opt first "type") "http") eqn:H1;
      [destruct (APIAnalyzer.is_str (JS.get_opt first "scheme") "bearer") eqn:H2|];
      cbn [andb].
    + apply is_str_eq in H1, H2.
      eexists. split; [reflexivity|]. split; [|split; [|split; [|exact Hdecl]]].
      * reflexivity.
      * intros H3. rewrite H1 in H3. discriminate H3.
      * intros Hn _. exfalso. apply Hn. now split.
    + apply is_str_eq in H1. rewrite H1.
      replace (APIAnalyzer.is_str (str "http") "apiKey") with false by reflexivity.
      eexists. split; [reflexivity|]. split; [|split; [|split; [|exact Hdecl]]].
      * intros _ Hb. apply is_str_eq in Hb. congruence.
      * discriminate.
      * reflexivity.
    + destruct (APIAnalyzer.is_str (JS.get_opt first "type") "apiKey") eqn:H3.
      * assert (Hf : JS.truthy first = true).
        { apply is_str_eq in H3. destruct first as [[| | | | |]|]; try discriminate H3;
            reflexivity. }
        rewrite !(get_truthy _ _ Hf). cbn [bind ret].
        apply is_str_eq in H3.
        eexists. split; [reflexivity|]. split; [|split; [|split; [|exact Hdecl]]].
        -- intros Hh. rewrite H3 in Hh. discriminate Hh.
        -- reflexivity.
        -- intros _ Hn. contradiction.
      * eexists. split; [reflexivity|]. split; [|split; [|split; [|exact Hdecl]]].
        -- intros Hh. apply is_str_eq in Hh. congruence.
        -- intros Hk. apply is_str_eq in Hk. congruence.
        -- reflexivity.
  - assert (Hf : first = undefined).
    { unfold first, Spec.first_enumerated_scheme. now rewrite (members_falsy _ Ht). }
    eexists. split; [reflexivity|]. split; [|split; [|split; [|exact Hdecl]]].
    + rewrite Hf. discriminate.
    + rewrite Hf. discriminate.
    + reflexivity.
Qed.

(** The claim C6 as it is worded fails: the first scheme this document
    declares is an http bearer scheme, and the authentication is taken
    from its second scheme, whose name is the numeral 0. *)
Lemma first_declared_scheme_overtaken :
  Spec.first_declared_scheme Sample.orders_document
  = Some (JObj [("type", JStr "http"); ("scheme", JStr "bearer")])
  /\ APIAnalyzer.parseAuthentication Sample.orders_document
     = inr {| Authentication.type := apiKey;
              Authentication.location := str "header";
              Authentication.name := str "X-API-Key" |}
  /\ APIAnalyzer.parseAuthentication Sample.orders_document
     <> inr Spec.bearer_authentication.
Proof. repeat split. discriminate. Qed.

(** ** The properties at sample inputs *)

Lemma endpoints_are_the_http_pairs_witness :
  length (Spec.path_method_pairs Sample.orders_document) = 5
  /\ length (ParsedAPI.endpoints Sample.orders_api) = 3
  /\ map Spec.endpoint_key (ParsedAPI.endpoints Sample.orders_api)
     = [("/orders", "GET"); ("/orders", "POST"); ("/orders/{id}", "DELETE")].
Proof.
  destruct (@endpoints_are_the_http_pairs Sample.orders_document Sample.orders_api)
    as (Hlen & Hkeys & _); [reflexivity|].
  split; [reflexivity|]. split.
  - rewrite Hlen. reflexivity.
  - rewrite Hkeys. reflexivity.
Defined.

Lemma body_schema_parameters_witness :
  exists added,
    APIAnalyzer.body_parameters Sample.create_order = inr added
    /\ Forall2 (Spec.body_parameter_of (Some Sample.body_schema))
               [("a", JObj [("type", JStr "integer")])] added.
Proof.
  destruct (proj1 body_schema_parameters Sample.create_order)
    as (added & Ha & HF & _).
  - discriminate.
  - reflexivity.
  - repeat constructor. discriminate.
  - exists added. split; [exact Ha | exact HF].
Defined.

Lemma responses_are_the_declared_codes_witness :
  exists responses,
    APIAnalyzer.declared_responses Sample.create_order = inr responses
    /\ length responses = 3
    /\ map APIResponse.statusCode responses = [Int 201; Int 400; NaN].
Proof.
  destruct (@responses_are_the_declared_codes Sample.create_order)
    as (responses & Hr & Hlen & _ & _).
  - discriminate.
  - repeat constructor; discriminate.
  - exists responses. split; [exact Hr|]. split; [exact Hlen|].
    revert Hr. vm_compute. intros Hr. injection Hr as <-. reflexivity.
Defined.

Lemma authentication_from_first_scheme_witness :
  exists authentication,
    APIAnalyzer.parseAuthentication Sample.orders_document = inr authentication
    /\ authentication
       = {| Authentication.type := apiKey;
            Authentication.location := str "header";
            Authentication.name := str "X-API-Key" |}.
Proof.
  destruct (@authentication_from_first_scheme Sample.orders_document)
    as (authentication & Ha & _ & Hk & _).
  - discriminate.
  - exists authentication. split; [exact Ha|]. apply Hk. reflexivity.
Defined.

(** The claim C9 as it is worded fails: of these three endpoints two are
    GET and one is POST, and the description reads "1 POST endpoint, 2 GET
    endpoints" because the POST endpoint comes first. *)
Lemma description_follows_first_use :
  let api := Sample.api_with [POST; GET; GET] in
  length (ParsedAPI.endpoints api) = 3
  /\ Spec.uses GET (ParsedAPI.endpoints api) = 2
  /\ Spec.uses POST (ParsedAPI.endpoints api) = 1
  /\ JSString.includes (APIAnalyzer.generateNaturalLanguageDescription api)
                       "2 GET endpoints, 1 POST endpoint" = false
  /\ JSString.includes (APIAnalyzer.generateNaturalLanguageDescription api)
                       "1 POST endpoint, 2 GET endpoints" = true.
Proof. vm_compute. repeat split. Qed.

Lemma description_is_summary_witness :
  JSString.includes
    (APIAnalyzer.generateNaturalLanguageDescription (Sample.api_with [GET; POST; GET]))
    "2 GET endpoints, 1 POST endpoint" = true.
Proof.
  apply (proj2 (description_is_summary (Sample.api_with [GET; POST; GET])));
    reflexivity.
Defined.

(** * Further properties of the analyzer *)

(** ** Vendor detection *)

Lemma includes_trans (s mid sub : string) :
  JSString.includes s mid = true ->
  JSString.includes mid sub = true ->
  JSString.includes s sub = true.
Proof.
  intros H1 H2.
  apply includes_inv in H1 as (a & b & ->).
  apply includes_inv in H2 as (c & d & ->).
  rewrite !append_assoc, <- (append_assoc a c). apply includes_append.
Qed.

(** X1. The longer signature of each vendor contains the shorter one, so only
    the three words decide: no vendor is detected exactly when the
    lower-cased input contains none of "stripe", "shopify" and "slack", and
    otherwise the first of the three words found, in that order, names the
    record. *)
Theorem detection_by_three_words (input : string) :
  let lower := JSString.toLowerCase input in
  APIAnalyzer.detectPopularAPI input
  = if JSString.includes lower "stripe" then Some POPULAR_APIS.stripe
    else if JSString.includes lower "shopify" then Some POPULAR_APIS.shopify
    else if JSString.includes lower "slack" then Some POPULAR_APIS.slack
    else None.
Proof.
  intros lower. unfold APIAnalyzer.detectPopularAPI. fold lower.
  assert (H : forall long short,
             JSString.includes long short = true ->
             JSString.includes lower short || JSString.includes lower long
             = JSString.includes lower short).
  { intros long short Hls.
    destruct (JSString.includes lower short) eqn:Hs; [reflexivity|]. simpl.
    destruct (JSString.includes lower long) eqn:Hl; [|reflexivity].
    rewrite <- Hs. symmetry. exact (includes_trans _ _ _ Hl Hls). }
  rewrite !H by reflexivity. reflexivity.
Qed.

Lemma lower_upper_char (c : ascii) :
  JSString.lower_char (JSString.upper_char c) = JSString.lower_char c.
Proof.
  destruct c as [[] [] [] [] [] [] [] []]; reflexivity.
Qed.

Lemma lower_lower_char (c : ascii) :
  JSString.lower_char (JSString.lower_char c) = JSString.lower_char c.
Proof.
  destruct c as [[] [] [] [] [] [] [] []]; reflexivity.
Qed.

Lemma toLowerCase_toUpperCase (s : string) :
  JSString.toLowerCase (JSString.toUpperCase s) = JSString.toLowerCase s.
Proof.
  induction s as [|c s IH]; simpl; [reflexivity|]. now rewrite lower_upper_char, IH.
Qed.

Lemma toLowerCase_idempotent (s : string) :
  JSString.toLowerCase (JSString.toLowerCase s) = JSString.toLowerCase s.
Proof.
  induction s as [|c s IH]; simpl; [reflexivity|]. now rewrite lower_lower_char, IH.
Qed.

(** X2. Detection does not depend on the case of the input's letters. *)
Theorem detection_ignores_case (input : string) :
  APIAnalyzer.detectPopularAPI (JSString.toUpperCase input)
  = APIAnalyzer.detectPopularAPI input
  /\ APIAnalyzer.detectPopularAPI (JSString.toLowerCase input)
     = APIAnalyzer.detectPopularAPI input.
Proof.
  unfold APIAnalyzer.detectPopularAPI.
  now rewrite toLowerCase_toUpperCase, toLowerCase_idempotent.
Qed.

(** ** OpenAPI detection and the failures of [analyzeAPI] *)

Section Failures.

Variable JSON_parse : string -> option JSON.
Variable URL_parses : string -> bool.

(** X3. A text is taken for an OpenAPI document exactly when it parses to an
    object with a truthy [openapi] or [swagger] member; [null], arrays,
    strings, numbers and booleans never are. *)
Theorem isOpenAPISpec_objects_only (input : string) :
  JS.truthy (APIAnalyzer.isOpenAPISpec JSON_parse input) = true
  <-> exists members,
        JSON_parse input = Some (JObj members)
        /\ (JS.truthy (JS.lookup "openapi" (JS.properties members)) = true
            \/ JS.truthy (JS.lookup "swagger" (JS.properties members)) = true).
Proof.
  unfold APIAnalyzer.isOpenAPISpec. split.
  - destruct (JSON_parse input) as [[| | | s | l | members]|]; simpl; try discriminate.
    intros H. exists members. split; [reflexivity|].
    unfold JS.or in H.
    destruct (JS.truthy (JS.lookup "openapi" (JS.properties members)));
      [now left | now right].
  - intros (members & -> & H). simpl. unfold JS.or.
    destruct (JS.truthy (JS.lookup "openapi" (JS.properties members))) eqn:Ho;
      [exact Ho|]. destruct H as [H|H]; [discriminate | exact H].
Qed.

(** X4. [analyzeAPI] fails in two ways only: with its own error, or with a
    [TypeError] of the OpenAPI transform, and the latter only on a text
    that is taken for an OpenAPI document and names no vendor. *)
Theorem analyzeAPI_failures (input : string) (e : exn) :
  APIAnalyzer.analyzeAPI JSON_parse URL_parses input = inl e ->
  e = APIAnalyzer.unable_to_analyze
  \/ (e = TypeError
      /\ APIAnalyzer.detectPopularAPI input = None
      /\ JS.truthy (APIAnalyzer.isOpenAPISpec JSON_parse input) = true).
Proof.
  unfold APIAnalyzer.analyzeAPI.
  destruct (APIAnalyzer.detectPopularAPI input); [discriminate|].
  destruct (JS.truthy (APIAnalyzer.isOpenAPISpec JSON_parse input)) eqn:Ho.
  - intros H. right. split; [|now split].
    exact (@rot_parseOpenAPISpec JSON_parse input Ho e H).
  - destruct (URL_parses input) eqn:Hu; unfold APIAnalyzer.isURL; rewrite Hu.
    + discriminate.
    + intros H. left. now injection H.
Qed.

End Failures.

Lemma analyzeAPI_failures_witness :
  APIAnalyzer.unable_to_analyze = APIAnalyzer.unable_to_analyze
  \/ (APIAnalyzer.unable_to_analyze = TypeError
      /\ APIAnalyzer.detectPopularAPI "ftp" = None
      /\ JS.truthy (APIAnalyzer.isOpenAPISpec Sample.JSON_parse "ftp") = true).
Proof.
  apply (@analyzeAPI_failures Sample.JSON_parse Sample.URL_parses "ftp"). reflexivity.
Defined.

(** ** When the transform returns *)


Lemma non_null_neq (j : JSON) : Spec.non_null j = true <-> j <> JNull.
Proof. destruct j; simpl; split; congruence. Qed.

Lemma returns_bind {A B} (c : throws A) (k : A -> throws B) :
  returns (bind c k) <-> exists a, c = inr a /\ returns (k a).
Proof.
  unfold returns. split.
  - intros (b & H). apply bind_inr in H as (a & Ha & Hb). exists a. split; [exact Ha|]. now exists b.
  - intros (a & -> & b & Hb). now exists b.
Qed.

Lemma returns_forEach {A B} (f : A -> throws B) (xs : list A) :
  returns (forEach f xs) <-> Forall (fun x => returns (f x)) xs.
Proof.
  induction xs as [|x r IH]; simpl.
  - split; [constructor | intros _; now exists []].
  - rewrite returns_bind. split.
    + intros (y & Hy & H). apply returns_bind in H as (ys & Hys & _).
      constructor; [now exists y | apply IH; now exists ys].
    + intros H. inversion H as [|? ? (y & Hy) Hr]; subst.
      exists y. split; [exact Hy|]. apply IH in Hr as (ys & Hys).
      rewrite Hys. now exists (y :: ys).
Qed.

Lemma Forall_forallb {A} (p : A -> bool) (P : A -> Prop) (xs : list A) :
  (forall x, P x <-> p x = true) -> Forall P xs <-> forallb p xs = true.
Proof.
  intros H. rewrite forallb_forall, Forall_forall.
  split; intros Hx x Hin; apply H; now apply Hx.
Qed.

Lemma get_returns (j : JSON) (k : string) :
  returns (JS.get (Some j) k) <-> j <> JNull.
Proof.
  split.
  - intros (w & H) ->. discriminate H.
  - intros H. rewrite (get_defined _ H). now eexists.
Qed.

Lemma declared_parameter_returns (param : JSON) :
  returns (APIAnalyzer.declared_parameter param) <-> Spec.non_null param = true.
Proof.
  rewrite non_null_neq. unfold APIAnalyzer.declared_parameter. split.
  - intros H. apply returns_bind in H as (w & Hw & _). intros ->. discriminate Hw.
  - intros H. rewrite !(get_defined _ H). cbn [bind]. now eexists.
Qed.

Lemma declared_parameters_returns (methodObj : JSON) :
  methodObj <> JNull ->
  returns (APIAnalyzer.declared_parameters methodObj)
  <-> Spec.accepts_parameters methodObj = true.
Proof.
  intros Hm. unfold APIAnalyzer.declared_parameters, Spec.accepts_parameters.
  rewrite (get_defined _ Hm). cbn [bind].
  destruct (JS.truthy (JS.get_opt (Some methodObj) "parameters")) eqn:Ht; cbn [negb orb].
  - destruct (JS.get_opt (Some methodObj) "parameters") as [[| | | | params |]|];
      try (split; [intros (? & H); discriminate H | discriminate]).
    rewrite returns_forEach. apply Forall_forallb. apply declared_parameter_returns.
  - split; [reflexivity | intros _; now eexists].
Qed.










Lemma filter_true {A} (l : list A) : filter (fun _ => true) l = l.
Proof. induction l; simpl; congruence. Qed.





Lemma generateCapabilities_returns (endpoints : list APIEndpoint.t) :
  returns (APIAnalyzer.generateCapabilities endpoints)
  <-> forallb Spec.tagged endpoints = true.
Proof.
  unfold APIAnalyzer.generateCapabilities. split.
  - generalize (@nil string). induction endpoints as [|e r IH]; intros caps; simpl;
      [reflexivity|].
    intros H. apply returns_bind in H as (caps' & He & H).
    apply andb_true_iff. split; [|exact (IH _ H)].
    unfold APIAnalyzer.add_endpoint in He. unfold Spec.tagged.
    destruct (APIEndpoint.tags e) as [[| | | | |]|]; try discriminate He; reflexivity.
  - intros H. rewrite (add_endpoints_adds _ _ H). now eexists.
Qed.





(** X6. What the transform returns keeps the invariants of a description: its
    capabilities are derived from its endpoints and hold no duplicate, and
    the tags of every endpoint are an array. *)
Theorem transform_capabilities (parsed : JSON) (api : ParsedAPI.t) :
  APIAnalyzer.parseOpenAPIDocument parsed = inr api ->
  APIAnalyzer.generateCapabilities (ParsedAPI.endpoints api)
  = inr (ParsedAPI.capabilities api)
  /\ ParsedAPI.capabilities api
     = Spec.first_occurrences String.eqb (Spec.labels (ParsedAPI.endpoints api))
  /\ NoDup (ParsedAPI.capabilities api)
  /\ forallb Spec.tagged (ParsedAPI.endpoints api) = true.
Proof.
  unfold APIAnalyzer.parseOpenAPIDocument. intros H.
  apply bind_inr in H as (endpoints & _ & H).
  apply bind_inr in H as (? & _ & H). apply bind_inr in H as (? & _ & H).
  apply bind_inr in H as (? & _ & H). apply bind_inr in H as (caps & Hc & H).
  injection H as <-. cbn [ParsedAPI.endpoints ParsedAPI.capabilities].
  assert (Ht : forallb Spec.tagged endpoints = true).
  { apply generateCapabilities_returns. now exists caps. }
  split; [exact Hc|].
  unfold APIAnalyzer.generateCapabilities in Hc.
  rewrite (add_endpoints_adds _ _ Ht), adds_first_occurrences in Hc.
  injection Hc as Hc. simpl in Hc.
  rewrite filter_true in Hc. subst caps.
  split; [reflexivity|]. split; [|exact Ht].
  apply first_occurrences_NoDup, String.eqb_eq.
Qed.

Lemma transform_capabilities_witness :
  ParsedAPI.capabilities Sample.orders_api
  = ["Manage orders"; "Retrieve data"; "Create resources"; "Delete resources"]
  /\ NoDup (ParsedAPI.capabilities Sample.orders_api).
Proof.
  destruct (@transform_capabilities Sample.orders_document Sample.orders_api)
    as (_ & Hc & Hn & _); [reflexivity|].
  split; [rewrite Hc; reflexivity | exact Hn].
Defined.

(** ** Declared parameters and method keys *)

Lemma declared_parameter_spec (param : JSON) :
  param <> JNull ->
  exists p, APIAnalyzer.declared_parameter param = inr p /\ Spec.parameter_of param p.
Proof.
  intros Hp. unfold APIAnalyzer.declared_parameter.
  rewrite !(get_defined _ Hp). cbn [bind ret].
  eexists. split; [reflexivity|].
  unfold Spec.parameter_of. cbn [APIParameter.name APIParameter.location
    APIParameter.required APIParameter.type APIParameter.description APIParameter.example].
  repeat (split; [reflexivity|]). split; [|split]; now intros ->.
Qed.

(** X7. The declared parameters of an operation map one to one, in order, into
    parameters that carry their name, location and example and take the
    type "string", the flag false and the empty description where the
    declaration has none; an operation without [parameters] has none; a
    [parameters] member that is not an array, or holds [null], makes the
    transform raise a [TypeError]. *)
Theorem declared_parameters_one_to_one (methodObj : JSON) :
  methodObj <> JNull ->
  let parameters := JS.get_opt (Some methodObj) "parameters" in
  (JS.truthy parameters = false ->
   APIAnalyzer.declared_parameters methodObj = inr [])
  /\ (forall params,
        parameters = arr params ->
        Forall (fun param => param <> JNull) params ->
        exists declared,
          APIAnalyzer.declared_parameters methodObj = inr declared
          /\ Forall2 Spec.parameter_of params declared)
  /\ (Spec.accepts_parameters methodObj = false ->
      APIAnalyzer.declared_parameters methodObj = inl TypeError).
Proof.
  intros Hm parameters. split; [|split].
  - intros Hf. unfold APIAnalyzer.declared_parameters.
    rewrite (get_defined _ Hm). cbn [bind]. fold parameters. now rewrite Hf.
  - intros params Hp Hn. unfold APIAnalyzer.declared_parameters.
    rewrite (get_defined _ Hm). cbn [bind]. fold parameters. rewrite Hp. cbn.
    apply forEach_total. revert Hn. apply Forall_impl. intros param.
    apply declared_parameter_spec.
  - intros Ha. destruct (APIAnalyzer.declared_parameters methodObj) as [e|declared] eqn:Hd.
    + f_equal. apply (@rot_operation EmptyString ("get", methodObj)).
      unfold APIAnalyzer.operation. cbn. now rewrite Hd.
    + assert (Hr : returns (APIAnalyzer.declared_parameters methodObj))
        by now exists declared.
      apply (declared_parameters_returns Hm) in Hr. congruence.
Qed.

Lemma declared_parameters_one_to_one_witness :
  exists declared,
    APIAnalyzer.declared_parameters Sample.create_order = inr declared
    /\ Forall2 Spec.parameter_of
               [JObj [("name", JStr "dryRun"); ("in", JStr "query")]] declared.
Proof.
  apply (proj1 (proj2 (@declared_parameters_one_to_one Sample.create_order
                         ltac:(discriminate)))).
  - reflexivity.
  - repeat constructor. discriminate.
Defined.


(** ** Capabilities of a growing list of endpoints *)

(** X9. Endpoints added at the end leave the capabilities found so far in
    place and may only append new ones; endpoints seen twice add
    nothing. *)
Theorem capabilities_grow (endpoints more : list APIEndpoint.t) :
  forallb Spec.tagged endpoints = true ->
  forallb Spec.tagged more = true ->
  exists capabilities extra,
    APIAnalyzer.generateCapabilities endpoints = inr capabilities
    /\ APIAnalyzer.generateCapabilities (endpoints ++ more) = inr (capabilities ++ extra)
    /\ (forall c, In c extra -> ~ In c capabilities /\ In c (Spec.labels more))
    /\ APIAnalyzer.generateCapabilities (endpoints ++ endpoints) = inr capabilities.
Proof.
  intros He Hm. unfold APIAnalyzer.generateCapabilities.
  assert (Hem : forallb Spec.tagged (endpoints ++ more) = true)
    by (rewrite forallb_app, He, Hm; reflexivity).
  assert (Hee : forallb Spec.tagged (endpoints ++ endpoints) = true)
    by (rewrite forallb_app, He; reflexivity).
  rewrite (add_endpoints_adds _ _ He), (add_endpoints_adds _ _ Hem),
    (add_endpoints_adds _ _ Hee).
  unfold Spec.labels. rewrite !flat_map_app, !adds_app.
  fold (Spec.labels endpoints) (Spec.labels more).
  set (caps := Spec.adds [] (Spec.labels endpoints)).
  rewrite (adds_first_occurrences (Spec.labels more) caps).
  rewrite (adds_first_occurrences (Spec.labels endpoints) caps).
  eexists caps, _. split; [reflexivity|]. split; [reflexivity|]. split.
  - intros c Hc.
    apply (proj1 (first_occurrences_In String.eqb String.eqb_eq _ _)) in Hc.
    apply filter_In in Hc as [Hin Hn]. split; [|exact Hin].
    intros Hcaps. apply (existsb_eqb String.eqb String.eqb_eq) in Hcaps.
    now rewrite Hcaps in Hn.
  - f_equal. rewrite <- app_nil_r. f_equal.
    assert (Hall : forall c, In c (Spec.labels endpoints) -> In c caps).
    { intros c Hc. unfold caps. rewrite adds_first_occurrences. simpl.
      rewrite filter_true.
      now apply (first_occurrences_In String.eqb String.eqb_eq). }
    clearbody caps.
    induction (Spec.labels endpoints) as [|x r IH]; simpl; [reflexivity|].
    assert (Hx : existsb (String.eqb x) caps = true).
    { apply (existsb_eqb String.eqb String.eqb_eq). apply Hall. now left. }
    rewrite Hx. simpl. apply IH. intros c Hc. apply Hall. now right.
Qed.

Lemma capabilities_grow_witness :
  exists capabilities extra,
    APIAnalyzer.generateCapabilities [Sample.endpoint_with GET] = inr capabilities
    /\ APIAnalyzer.generateCapabilities
         ([Sample.endpoint_with GET] ++ [Sample.endpoint_with PUT; Sample.endpoint_with PATCH])
       = inr (capabilities ++ extra)
    /\ (forall c, In c extra ->
          ~ In c capabilities
          /\ In c (Spec.labels [Sample.endpoint_with PUT; Sample.endpoint_with PATCH]))
    /\ APIAnalyzer.generateCapabilities
         ([Sample.endpoint_with GET] ++ [Sample.endpoint_with GET]) = inr capabilities.
Proof.
  apply (@capabilities_grow [Sample.endpoint_with GET]
           [Sample.endpoint_with PUT; Sample.endpoint_with PATCH]); reflexivity.
Defined.

(** ** The breakdown by method *)

Lemma uses_filter_out (k : Method) (endpoints : list APIEndpoint.t) (m : Method) :
  Method_eqb m k = false ->
  Spec.uses k (filter (fun e => negb (Method_eqb m (APIEndpoint.method e))) endpoints)
  = Spec.uses k endpoints.
Proof.
  intros Hmk. unfold Spec.uses. induction endpoints as [|e r IH]; simpl; [reflexivity|].
  destruct (Method_eqb m (APIEndpoint.method e)) eqn:Hme; simpl.
  - apply Method_eqb_eq in Hme. subst m.
    replace (Method_eqb k (APIEndpoint.method e)) with false
      by (destruct k, (APIEndpoint.method e); simpl in *; congruence).
    exact IH.
  - destruct (Method_eqb k (APIEndpoint.method e)); simpl; now rewrite IH.
Qed.

(** X10. The counts of the breakdown add up to the number of endpoints; every
    method used appears once, with a count of at least one, so there are
    at most five entries. *)
Theorem method_counts_partition (endpoints : list APIEndpoint.t) :
  list_sum (map snd (APIAnalyzer.method_counts endpoints)) = length endpoints
  /\ NoDup (map fst (APIAnalyzer.method_counts endpoints))
  /\ (forall m c, In (m, c) (APIAnalyzer.method_counts endpoints) ->
        1 <= c /\ c = Spec.uses m endpoints)
  /\ length (APIAnalyzer.method_counts endpoints) <= 5.
Proof.
  rewrite method_counts_breakdown. unfold Spec.breakdown.
  assert (Hnd : NoDup (Spec.first_occurrences Method_eqb
                         (map APIEndpoint.method endpoints)))
    by apply first_occurrences_NoDup, Method_eqb_eq.
  split; [|split; [|split]].
  - rewrite map_map. cbn [snd].
    remember (length endpoints) as n eqn:Hn. revert endpoints Hn Hnd.
    induction n as [n IH] using lt_wf_ind. intros endpoints Hn _.
    destruct endpoints as [|e r]; [now subst|].
    cbn [map Spec.first_occurrences list_sum].
    set (m := APIEndpoint.method e).
    rewrite <- (first_occurrences_filter Method_eqb Method_eqb_eq).
    assert (Hmap : filter (fun y => negb (Method_eqb m y)) (map APIEndpoint.method r)
                   = map APIEndpoint.method
                       (filter (fun e' => negb (Method_eqb m (APIEndpoint.method e'))) r)).
    { clear. induction r as [|x r IH]; simpl; [reflexivity|].
      destruct (Method_eqb m (APIEndpoint.method x)); simpl; now rewrite IH. }
    rewrite Hmap.
    set (rest := filter (fun e' => negb (Method_eqb m (APIEndpoint.method e'))) r).
    assert (Hsum : list_sum (map (fun x => Spec.uses x (e :: r))
                      (Spec.first_occurrences Method_eqb (map APIEndpoint.method rest)))
                   = list_sum (map (fun x => Spec.uses x rest)
                      (Spec.first_occurrences Method_eqb (map APIEndpoint.method rest)))).
    { f_equal. apply map_ext_in. intros k Hk.
      apply (proj1 (first_occurrences_In Method_eqb Method_eqb_eq _ _)) in Hk.
      apply in_map_iff in Hk as (e' & <- & He').
      apply filter_In in He' as [_ He']. apply negb_true_iff in He'.
      unfold rest. rewrite (@uses_filter_out (APIEndpoint.method e') r m He').
      unfold Spec.uses. simpl. fold m.
      replace (Method_eqb (APIEndpoint.method e') m) with false
        by (destruct (APIEndpoint.method e'), m; simpl in *; congruence).
      reflexivity. }
    match goal with
    | |- list_sum (?a :: ?l) = _ => change (list_sum (a :: l)) with (a + list_sum l)
    end.
    rewrite Hsum.
    assert (Hlen : length rest + Spec.uses m (e :: r) = length (e :: r)).
    { unfold rest, Spec.uses. simpl. fold m.
      replace (Method_eqb m m) with true by now destruct m.
      simpl. clear. induction r as [|x r IH]; simpl; [reflexivity|].
      destruct (Method_eqb m (APIEndpoint.method x)); simpl; lia. }
    rewrite (IH (length rest)) with (endpoints := rest).
    + lia.
    + subst n. simpl. unfold rest.
      pose proof (filter_length_le
        (fun e' => negb (Method_eqb m (APIEndpoint.method e'))) r). lia.
    + reflexivity.
    + apply first_occurrences_NoDup, Method_eqb_eq.
  - rewrite map_map. cbn [fst]. now rewrite map_id.
  - intros m c H. apply in_map_iff in H as (k & Hk & Hin). injection Hk as -> <-.
    split; [|reflexivity]. apply uses_used.
    exact (proj1 (first_occurrences_In Method_eqb Method_eqb_eq _ _) Hin).
  - rewrite length_map.
    apply (@NoDup_incl_length _ _ [GET; POST; PUT; DELETE; PATCH] Hnd).
    intros [] _; simpl; tauto.
Qed.

(** ** Status codes ([parseInt]) *)







(** ** The builder page *)

Section Page.

Variable JSON_parse : string -> option JSON.
Variable URL_parses : string -> bool.

Let handleAnalyzeAPI := BuilderPage.handleAnalyzeAPI JSON_parse URL_parses.
Let run := BuilderPage.run JSON_parse URL_parses.

(** X12. Choosing a popular API and analyzing shows the catalog record of that
    very API, whatever the page held before. *)
Theorem select_then_analyze (api : BuilderPage.PopularAPI) (s : BuilderPage.State) :
  In api BuilderPage.popularAPIs ->
  exists v,
    BuilderPage.parsedAPI (handleAnalyzeAPI (BuilderPage.selectPopularAPI api s))
    = Some (Spec.record v)
    /\ JS.ToStringV (ParsedAPI.name (Spec.record v)) = BuilderPage.name api
    /\ ParsedAPI.baseUrl (Spec.record v) = str (BuilderPage.url api).
Proof.
  intros [<-|[<-|[<-|[]]]];
    [exists Spec.Stripe | exists Spec.Shopify | exists Spec.Slack];
    repeat split; reflexivity.
Qed.

(** X13. The selection is never cleared: in every state the page can reach, the
    selected API is none or one of the three offered, and once one is
    selected, analyzing shows its catalog record whatever the endpoint
    field holds, so an endpoint typed afterwards is not analyzed. *)
Theorem selection_overrides_endpoint (events : list BuilderPage.Event) :
  Forall BuilderPage.offered events ->
  let s := run events in
  (BuilderPage.selectedAPI s = EmptyString
   \/ exists api, In api BuilderPage.popularAPIs
                  /\ BuilderPage.selectedAPI s = BuilderPage.id api)
  /\ (BuilderPage.selectedAPI s <> EmptyString ->
      forall typed,
      exists v,
        BuilderPage.parsedAPI (handleAnalyzeAPI (BuilderPage.changeEndpoint typed s))
        = Some (Spec.record v)
        /\ APIAnalyzer.detectPopularAPI (BuilderPage.selectedAPI s)
           = Some (Spec.record v)).
Proof.
  intros Hev s.
  assert (Hinv : BuilderPage.selectedAPI s = EmptyString
                 \/ exists api, In api BuilderPage.popularAPIs
                                /\ BuilderPage.selectedAPI s = BuilderPage.id api).
  { unfold s, run, BuilderPage.run.
    assert (Hgen : forall s0,
               (BuilderPage.selectedAPI s0 = EmptyString
                \/ exists api, In api BuilderPage.popularAPIs
                               /\ BuilderPage.selectedAPI s0 = BuilderPage.id api) ->
               let s1 := fold_left (BuilderPage.handle JSON_parse URL_parses) events s0 in
               BuilderPage.selectedAPI s1 = EmptyString
               \/ exists api, In api BuilderPage.popularAPIs
                              /\ BuilderPage.selectedAPI s1 = BuilderPage.id api).
    { induction Hev as [|e r He _ IH]; intros s0 H0; [exact H0|].
      cbn [fold_left]. apply IH. destruct e as [api|value|]; cbn.
      - right. now exists api.
      - exact H0.
      - unfold BuilderPage.handleAnalyzeAPI.
        destruct (_ && _); [exact H0|].
        destruct (APIAnalyzer.analyzeAPI _ _ _); exact H0. }
    apply Hgen. now left. }
  split; [exact Hinv|].
  intros Hsel typed. destruct Hinv as [Hinv|(api & Hin & Hid)]; [contradiction|].
  unfold handleAnalyzeAPI, BuilderPage.handleAnalyzeAPI. cbn. rewrite Hid.
  destruct Hin as [<-|[<-|[<-|[]]]];
    [exists Spec.Stripe | exists Spec.Shopify | exists Spec.Slack];
    cbn; rewrite andb_false_r; split; reflexivity.
Qed.


End Page.

Lemma select_then_analyze_witness :
  exists v,
    BuilderPage.parsedAPI
      (BuilderPage.handleAnalyzeAPI Sample.JSON_parse Sample.URL_parses
         (BuilderPage.selectPopularAPI
            (BuilderPage.popular "slack" "Slack" "Team communication"
                                 "https://slack.com/api")
            BuilderPage.initial))
    = Some (Spec.record v)
    /\ JS.ToStringV (ParsedAPI.name (Spec.record v)) = "Slack"
    /\ ParsedAPI.baseUrl (Spec.record v) = str "https://slack.com/api".
Proof.
  apply (@select_then_analyze Sample.JSON_parse Sample.URL_parses
           (BuilderPage.popular "slack" "Slack" "Team communication"
                                "https://slack.com/api")
           BuilderPage.initial).
  right. right. left. reflexivity.
Defined.

Lemma selection_overrides_endpoint_witness :
  exists v,
    BuilderPage.parsedAPI
      (BuilderPage.handleAnalyzeAPI Sample.JSON_parse Sample.URL_parses
         (BuilderPage.changeEndpoint "https://example.com/api"
            (BuilderPage.run Sample.JSON_parse Sample.URL_parses
               [BuilderPage.Select
                  (BuilderPage.popular "stripe" "Stripe" "Payment processing"
                                       "https://api.stripe.com/v1");
                BuilderPage.Change "https://example.com/api"])))
    = Some (Spec.record v)
    /\ APIAnalyzer.detectPopularAPI "stripe" = Some (Spec.record v).
Proof.
  apply (proj2 (@selection_overrides_endpoint Sample.JSON_parse Sample.URL_parses
                  [BuilderPage.Select
                     (BuilderPage.popular "stripe" "Stripe" "Payment processing"
                                          "https://api.stripe.com/v1");
                   BuilderPage.Change "https://example.com/api"]
                  ltac:(repeat constructor; cbn; tauto))).
  discriminate.
Defined.


(** ** Enumeration of a mapping *)

Lemma lookup_define (k k' : string) (v : JSON) (o : list (string * JSON)) :
  JS.lookup k (JS.define k' v o) = if String.eqb k k' then Some v else JS.lookup k o.
Proof.
  induction o as [|[k0 v0] r IH]; simpl.
  - reflexivity.
  - destruct (String.eqb k' k0) eqn:E0; simpl.
    + apply String.eqb_eq in E0. subst k0. now destruct (String.eqb k k').
    + rewrite IH. destruct (String.eqb k k0) eqn:E1; [|reflexivity].
      apply String.eqb_eq in E1. subst k0.
      destruct (String.eqb k k') eqn:E2; [|reflexivity].
      apply String.eqb_eq in E2. subst k'. now rewrite String.eqb_refl in E0.
Qed.

Lemma define_keys (k : string) (v : JSON) (o : list (string * JSON)) :
  map fst (JS.define k v o)
  = if existsb (String.eqb k) (map fst o) then map fst o else map fst o ++ [k].
Proof.
  induction o as [|[k0 v0] r IH]; simpl; [reflexivity|].
  destruct (String.eqb k k0); simpl; [reflexivity|].
  rewrite IH. now destruct (existsb (String.eqb k) (map fst r)).
Qed.

Lemma define_NoDup (k : string) (v : JSON) (o : list (string * JSON)) :
  NoDup (map fst o) -> NoDup (map fst (JS.define k v o)).
Proof.
  intros H. rewrite define_keys.
  destruct (existsb (String.eqb k) (map fst o)) eqn:E; [exact H|].
  apply NoDup_app; [exact H | repeat constructor; intros [] |].
  intros x Hx [<-|[]].
  apply (existsb_eqb String.eqb String.eqb_eq) in Hx. congruence.
Qed.

Lemma properties_spec (members o : list (string * JSON)) :
  NoDup (map fst o) ->
  let o' := fold_left (fun o kv => JS.define (fst kv) (snd kv) o) members o in
  NoDup (map fst o')
  /\ forall k, JS.lookup k o'
               = match Spec.last_declared k members with
                 | Some w => Some w
                 | None => JS.lookup k o
                 end.
Proof.
  revert o. induction members as [|[k0 v0] r IH]; intros o Ho; simpl.
  - split; [exact Ho | reflexivity].
  - destruct (IH (JS.define k0 v0 o) (define_NoDup k0 v0 _ Ho)) as [Hn Hl].
    split; [exact Hn|]. intros k. rewrite Hl, lookup_define.
    destruct (Spec.last_declared k r); [reflexivity|].
    now destruct (String.eqb k k0).
Qed.




Lemma properties_lookup (members : list (string * JSON)) :
  NoDup (map fst (JS.properties members))
  /\ (forall k, JS.get (obj members) k = inr (Spec.last_declared k members)).
Proof.
  unfold JS.properties.
  destruct (properties_spec members [] (NoDup_nil _)) as [Hn Hl].
  split; [exact Hn|]. intros k. simpl. unfold JS.properties. rewrite Hl. simpl.
  now destruct (Spec.last_declared k members).
Qed.


(** ** Vendor words in other inputs *)

(** X16. An input that contains a vendor word is never transformed, never read
    as a URL and never refused: the answer is a catalog record, even for
    the text of an OpenAPI document. *)
Theorem vendor_word_shadows_other_strategies
        (JSON_parse : string -> option JSON) (URL_parses : string -> bool)
        (input : string) (v : Spec.Vendor) :
  Spec.mentions input v = true ->
  exists w, Spec.rank w <= Spec.rank v
            /\ APIAnalyzer.analyzeAPI JSON_parse URL_parses input = inr (Spec.record w).
Proof.
  intros Hv. unfold APIAnalyzer.analyzeAPI.
  rewrite detectPopularAPI_first_mentioned. unfold Spec.check_order. cbn [find].
  destruct (Spec.mentions input Spec.Stripe) eqn:H1.
  { exists Spec.Stripe. split; [cbn; lia | reflexivity]. }
  destruct (Spec.mentions input Spec.Shopify) eqn:H2.
  { exists Spec.Shopify. split; [|reflexivity]. destruct v; cbn; try lia. congruence. }
  destruct (Spec.mentions input Spec.Slack) eqn:H3.
  { exists Spec.Slack. split; [|reflexivity]. destruct v; cbn; try lia; congruence. }
  destruct v; congruence.
Qed.

Lemma vendor_word_shadows_other_strategies_witness :
  exists w, Spec.rank w <= Spec.rank Spec.Slack
            /\ APIAnalyzer.analyzeAPI Sample.JSON_parse Sample.URL_parses
                 "{ openapi: 3, info: Slack bot }" = inr (Spec.record w).
Proof.
  apply (@vendor_word_shadows_other_strategies Sample.JSON_parse Sample.URL_parses
           "{ openapi: 3, info: Slack bot }" Spec.Slack).
  reflexivity.
Defined.

(** ** Name, base URL and description of a transformed document *)

Lemma get_last_declared (members : list (string * JSON)) (k : string) :
  JS.get_opt (obj members) k = Spec.last_declared k members.
Proof.
  apply get_get_opt. unfold obj.
  exact (proj2 (@properties_lookup members) k).
Qed.

(** X17. For a document that the transform accepts, the name is the title
    under [info], or "Unknown API" when the document has no [info] or no
    title; the base URL is the [url] of the first entry of [servers], or
    the empty string when there is no [servers] member or the list is
    empty; the description is the one under [info], or the empty string. *)
Theorem transform_defaults (members : list (string * JSON)) (api : ParsedAPI.t) :
  APIAnalyzer.parseOpenAPIDocument (JObj members) = inr api ->
  let info := Spec.last_declared "info" members in
  let servers := Spec.last_declared "servers" members in
  ParsedAPI.name api = JS.or (JS.get_opt info "title") (str "Unknown API")
  /\ ParsedAPI.description api
     = JS.or (JS.get_opt info "description") (str EmptyString)
  /\ (info = undefined ->
      ParsedAPI.name api = str "Unknown API"
      /\ ParsedAPI.description api = str EmptyString)
  /\ (servers = undefined \/ servers = arr [] ->
      ParsedAPI.baseUrl api = str EmptyString)
  /\ (forall first rest url,
        servers = arr (JObj first :: rest) ->
        Spec.last_declared "url" first = str url ->
        url <> EmptyString ->
        ParsedAPI.baseUrl api = str url).
Proof.
  intros H info servers. unfold APIAnalyzer.parseOpenAPIDocument in H.
  apply bind_inr in H as (endpoints & _ & H).
  apply bind_inr in H as (info' & Hi & H).
  apply bind_inr in H as (servers' & Hs & H).
  apply bind_inr in H as (auth & _ & H).
  apply bind_inr in H as (caps & _ & H).
  injection H as <-.
  cbn [ParsedAPI.name ParsedAPI.description ParsedAPI.baseUrl].
  apply get_get_opt in Hi, Hs.
  change (Some (JObj members)) with (obj members) in Hi, Hs.
  rewrite get_last_declared in Hi, Hs. subst info' servers'.
  fold info servers.
  split; [reflexivity|]. split; [reflexivity|]. split; [|split].
  - intros ->. split; reflexivity.
  - intros [-> | ->]; reflexivity.
  - intros first rest url -> Hu Hn.
    change (JS.get_opt (arr (JObj first :: rest)) "0") with (obj first).
    rewrite get_last_declared, Hu. unfold JS.or, str. simpl.
    destruct (String.eqb_spec url EmptyString); [contradiction | reflexivity].
Qed.

Lemma transform_defaults_witness :
  ParsedAPI.name Sample.orders_api = str "Orders"
  /\ ParsedAPI.baseUrl Sample.orders_api = str EmptyString.
Proof.
  destruct (@transform_defaults Sample.orders_members Sample.orders_api)
    as (Hname & _ & _ & Hurl & _); [reflexivity|].
  split; [rewrite Hname; reflexivity | apply Hurl; left; reflexivity].
Defined.
